(** * Spatiotemporal aggregation of vehicle trajectories (vt_prediction)

    A shallow embedding of the aggregation code of the repository:
    - [src/utils/datapreprocessing_utils.py] (module [Utils]),
    - [src/datapreprocessing.py] (module [Legacy], the older copy),
    - [src/realtime_aggregator_1.py] (module [Realtime]).

    Conventions of the embedding.
    - A Spark [DoubleType] column or a Python/numpy float is an exact
      rational ([Q]); NaN and the infinities are not represented, and the
      binary rounding of each floating-point operation is not modelled.
    - A Spark [IntegerType]/[LongType] column and a Python int is a [Z]; the
      32-bit range of [cast("integer")] is written out ([cast_integer]).
    - SQL NULL is [None].
    - A Python exception is the [Raise] branch of [result].
    - A DataFrame is the list of its rows; [groupBy] yields one group per
      distinct key (Spark leaves the order of the groups unspecified, the
      embedding lists them by first occurrence). *)

From Stdlib Require Import ZArith QArith Qround Qabs Lia Lqa Permutation.
From stdpp Require Import base option list gmap strings sorting.

Local Open Scope Z_scope.

(** ** Python: exceptions, integer division, indexing *)

Module Py.

(** The exceptions the code can end with; [AnalysisException] is raised by
    Spark while a query is built. *)
Inductive exn : Type :=
| ZeroDivisionError
| ValueError
| IndexError
| AnalysisException.

Inductive result (A : Type) : Type :=
| Ok (a : A)
| Raise (e : exn).
Global Arguments Ok {A} a.
Global Arguments Raise {A} e.

Definition bind {A B : Type} (m : result A) (k : A -> result B) : result B :=
  match m with
  | Ok a => k a
  | Raise e => Raise e
  end.

(** [a // b] on Python ints: floor division, [ZeroDivisionError] on [b = 0]. *)
Definition floordiv (a b : Z) : result Z :=
  if b =? 0 then Raise ZeroDivisionError else Ok (a / b).

(** [seq[i]] for an int [i] on a sequence of length [len]: a negative index
    counts from the end, anything outside [-len, len) is an [IndexError]. *)
Definition index (len : nat) (i : Z) : result nat :=
  if (0 <=? i) && (i <? Z.of_nat len) then Ok (Z.to_nat i)
  else if (- Z.of_nat len <=? i) && (i <? 0) then Ok (Z.to_nat (Z.of_nat len + i))
  else Raise IndexError.

(** [l.index(x)]: the first position of [x], [ValueError] when absent. *)
Definition list_index (l : list Z) (x : Z) : result nat :=
  match list_find (fun y => y = x) l with
  | Some (i, _) => Ok i
  | None => Raise ValueError
  end.

(** A list comprehension whose element expression may raise. *)
Fixpoint map_each {A B : Type} (f : A -> result B) (l : list A) : result (list B) :=
  match l with
  | [] => Ok []
  | x :: rest =>
      bind (f x) (fun y => bind (map_each f rest) (fun ys => Ok (y :: ys)))
  end.

(** Left-to-right [for] loop whose body may raise. *)
Fixpoint for_each {S R : Type} (body : S -> R -> result S) (s : S) (rows : list R)
  : result S :=
  match rows with
  | [] => Ok s
  | r :: rest => bind (body s r) (fun s' => for_each body s' rest)
  end.

End Py.

Export Py.

Notation "x <~ m ;; k" := (Py.bind m (fun x => k))
  (at level 100, m at next level, right associativity,
   format "'[' x  <~  m ;;  '/' k ']'").

(** ** Spark SQL column functions *)

Module F.

(** [a / b] on doubles: NULL when the divisor is zero (non-ANSI mode). *)
Definition div (a b : Q) : option Q :=
  if Qeq_bool b 0 then None else Some (a / b)%Q.

(** Truncation toward zero. *)
Definition Qtrunc (q : Q) : Z := Z.quot (Qnum q) (Zpos (Qden q)).

Definition int_min : Z := - 2 ^ 31.
Definition int_max : Z := 2 ^ 31 - 1.

(** [col.cast("integer")] on a double: the fraction is discarded and the
    result saturates at the bounds of a 32-bit int. *)
Definition saturate_int (z : Z) : Z := Z.max int_min (Z.min int_max z).

Definition cast_integer (q : Q) : Z := saturate_int (Qtrunc q).

(** Nearest integer, ties away from zero (HALF_UP). *)
Definition half_up (q : Q) : Z :=
  if Qle_bool 0 q then Qfloor (q + (1 # 2))%Q else Qceiling (q - (1 # 2))%Q.

(** [F.round(col, scale)] on a double: HALF_UP at [scale] decimals. *)
Definition round (q : Q) (scale : nat) : Q :=
  Qmake (half_up (q * inject_Z (10 ^ Z.of_nat scale))%Q) (Z.to_pos (10 ^ Z.of_nat scale)).

(** [F.round(col)] on an integer column (scale 0). *)
Definition round_integer (n : Z) : Z := half_up (inject_Z n).

Definition sum (l : list Q) : Q := foldr Qplus 0%Q l.

(** [F.avg(col)] over the rows of one group. *)
Definition avg (l : list Q) : Q := (sum l / inject_Z (Z.of_nat (length l)))%Q.

(** [F.count("*")] over the rows of one group. *)
Definition count {R : Type} (l : list R) : Z := Z.of_nat (length l).

(** [df.groupBy(key)]: the distinct keys, each with its rows. *)
Definition groupBy {R K : Type} `{EqDecision K} (key : R -> K) (df : list R)
  : list (K * list R) :=
  (fun k => (k, filter (fun r => key r = k) df)) <$> remove_dups (key <$> df).

End F.

(** ** numpy: dense 2-D arrays *)

Module Np.

(** [np.full((rows, cols), v)] and [np.zeros((rows, cols))]: a negative
    dimension is a [ValueError]. *)
Definition full {A : Type} (rows cols : Z) (v : A) : result (list (list A)) :=
  if (rows <? 0) || (cols <? 0) then Raise ValueError
  else Ok (replicate (Z.to_nat rows) (replicate (Z.to_nat cols) v)).

(** [m[i][j] = v]: [m[i]] is looked up first, then its item [j] is set; both
    indices follow Python's rules. *)
Definition setitem {A : Type} (m : list (list A)) (i j : Z) (v : A)
  : result (list (list A)) :=
  i' <~ Py.index (length m) i ;;
  match m !! i' with
  | None => Raise IndexError
  | Some row =>
      j' <~ Py.index (length row) j ;;
      Ok (<[i' := <[j' := v]> row]> m)
  end.

(** Arrays with [nr] rows of [nc] columns. *)
Definition shape {A : Type} (nr nc : nat) (m : list (list A)) : Prop :=
  length m = nr /\ Forall (fun row => length row = nc) m.

(** [m[i][j]] for indices already in range. *)
Definition get {A : Type} (m : list (list A)) (i j : nat) : option A :=
  m !! i ≫= (.!! j).

(** [m[i][None] = v]: [None] is [np.newaxis], the assignment is broadcast
    over the whole row [m[i]]. *)
Definition setitem_newaxis {A : Type} (m : list (list A)) (i : Z) (v : A)
  : result (list (list A)) :=
  i' <~ Py.index (length m) i ;;
  match m !! i' with
  | None => Raise IndexError
  | Some row => Ok (<[i' := replicate (length row) v]> m)
  end.

(** Storing a float into an int64 array keeps its integer part (a value
    outside the int64 range becomes the minimum int64). *)
Definition int64_of_float (q : Q) : Z :=
  let t := F.Qtrunc q in
  if (- 2 ^ 63 <=? t) && (t <? 2 ^ 63) then t else - 2 ^ 63.

End Np.

(** ** src/utils/datapreprocessing_utils.py *)

Module Utils.

(** A row of the DataFrame given to [section_agg] (the columns it reads). *)
Record Point : Type := mkPoint {
  p_ElapsedTime : Z;
  p_Lane_ID : Z;
  p_Distance : Q;
  p_v_Vel : Q;
  p_v_Acc : Q
}.

(** A row produced by [section_agg]. *)
Record FineRow : Type := mkFineRow {
  f_ElapsedTime : Z;
  f_Section_ID : option Z;
  f_Lane_ID : Z;
  f_avg_v_Vel : Q;
  f_avg_v_Acc : Q;
  f_count : Z
}.

(** A row produced by [timewindow_agg]. *)
Record WindowRow : Type := mkWindowRow {
  w_TimeWindow : option Z;
  w_Section_ID : option Z;
  w_Lane_ID : Z;
  w_avg_v_Vel : Q;
  w_avg_v_Acc : Q;
  w_count : Z
}.

(** A row read by the matrix renderers (a non-null integer section). *)
Record StatRow : Type := mkStatRow {
  r_Lane_ID : Z;
  r_Section_ID : Z;
  r_avg_v_Vel : Q;
  r_count : Z;
  r_avg_v_Acc : Q
}.

(** The grouping columns of a row of [section_agg] and of [timewindow_agg]. *)
Definition fine_key (o : FineRow) : Z * option Z * Z :=
  (f_ElapsedTime o, f_Section_ID o, f_Lane_ID o).

Definition coarse_key (o : WindowRow) : option Z * option Z * Z :=
  (w_TimeWindow o, w_Section_ID o, w_Lane_ID o).

(** The [Section_ID] column:
    [F.round((F.col("Distance") / F.lit(width)).cast("integer"))]. *)
Definition Section_ID (Distance : Q) (width : Z) : option Z :=
  (fun q => F.round_integer (F.cast_integer q)) <$> F.div Distance (inject_Z width).

Definition section_key (width : Z) (p : Point) : Z * option Z * Z :=
  (p_ElapsedTime p, Section_ID (p_Distance p) width, p_Lane_ID p).

Definition section_row (g : (Z * option Z * Z) * list Point) : FineRow :=
  let '((t, s, l), pts) := g in
  {| f_ElapsedTime := t;
     f_Section_ID := s;
     f_Lane_ID := l;
     f_avg_v_Vel := F.round (F.avg (p_v_Vel <$> pts)) 1;
     f_avg_v_Acc := F.round (F.avg (p_v_Acc <$> pts)) 2;
     f_count := F.count pts |}.

Definition section_agg (df : list Point) (max_dist num_section_splits : Z)
  : result (list FineRow) :=
  width <~ Py.floordiv max_dist num_section_splits ;;
  Ok (section_row <$> F.groupBy (section_key width) df).

(** The [TimeWindow] column:
    [F.round((F.col("ElapsedTime") / F.lit(timewindow * 1000)).cast("integer"))]. *)
Definition TimeWindow (ElapsedTime timewindow : Z) : option Z :=
  (fun q => F.round_integer (F.cast_integer q))
    <$> F.div (inject_Z ElapsedTime) (inject_Z (timewindow * 1000)).

(** The filter of [timewindow_agg]; [guard] is the 45 subtracted from the
    upper bound. *)
Definition admitted (start end_ guard : Z) (df : list FineRow) : list FineRow :=
  filter (fun r => start * 1000 <= f_ElapsedTime r /\ f_ElapsedTime r < end_ * 1000 - guard) df.

Definition window_key (timewindow : Z) (r : FineRow) : option Z * option Z * Z :=
  (TimeWindow (f_ElapsedTime r) timewindow, f_Section_ID r, f_Lane_ID r).

Definition window_row (g : (option Z * option Z * Z) * list FineRow) : WindowRow :=
  let '((w, s, l), rows) := g in
  {| w_TimeWindow := w;
     w_Section_ID := s;
     w_Lane_ID := l;
     w_avg_v_Vel := F.round (F.avg (f_avg_v_Vel <$> rows)) 1;
     w_avg_v_Acc := F.round (F.avg (f_avg_v_Acc <$> rows)) 2;
     w_count := F.count rows |}.

Definition timewindow_agg (df : list FineRow) (start end_ timewindow : Z)
  : list WindowRow :=
  window_row <$> F.groupBy (window_key timewindow) (admitted start end_ 45 df).

(** The three arrays of the renderers: [vel_matrix] is created by
    [np.full(shape, 60)] from a Python int, hence an int64 array;
    [dens_matrix] and [acc_matrix] come from [np.zeros], float64 arrays. *)
Record Matrices : Type := mkMatrices {
  vel_matrix : list (list Z);
  dens_matrix : list (list Q);
  acc_matrix : list (list Q)
}.

(** The local function of [rdd_to_np_matrices]: it returns its argument. *)
Definition min_max_scaler {A : Type} (x : A) : A := x.

Definition init_matrices (num_lanes num_sections : Z) : result Matrices :=
  vel <~ Np.full num_lanes num_sections (min_max_scaler 60) ;;
  dens <~ Np.full num_lanes num_sections 0%Q ;;
  acc <~ Np.full num_lanes num_sections 0%Q ;;
  Ok (mkMatrices vel dens acc).

(** The section column a row is written to. *)
Definition clamp_section (num_sections section_index : Z) : Z :=
  if section_index =? num_sections then num_sections - 1 else section_index.

(** The test that makes the loop [continue]. *)
Definition skipped (with_ramp : bool) (row : StatRow) : bool :=
  negb with_ramp && (r_Lane_ID row =? 6).

(** The body of the [for row in ...] loop, the same in [create_np_matrices]
    and in [rdd_to_np_matrices]. *)
Definition fill_row (num_sections : Z) (with_ramp : bool) (m : Matrices) (row : StatRow)
  : result Matrices :=
  let lane_index := r_Lane_ID row in
  if skipped with_ramp row then Ok m
  else
    let section_index := clamp_section num_sections (r_Section_ID row) in
    vel <~ Np.setitem (vel_matrix m) (lane_index - 1) section_index
             (Np.int64_of_float (min_max_scaler (r_avg_v_Vel row))) ;;
    dens <~ Np.setitem (dens_matrix m) (lane_index - 1) section_index
             (inject_Z (min_max_scaler (r_count row))) ;;
    acc <~ Np.setitem (acc_matrix m) (lane_index - 1) section_index
             (min_max_scaler (r_avg_v_Acc row)) ;;
    Ok (mkMatrices vel dens acc).

(** The position a row is written to in arrays of shape
    [(num_lanes, num_sections)]: [lane_index - 1] and the clamped section,
    resolved by Python's indexing. *)
Definition cell (num_lanes num_sections : Z) (row : StatRow) : result (nat * nat) :=
  i <~ Py.index (Z.to_nat num_lanes) (r_Lane_ID row - 1) ;;
  j <~ Py.index (Z.to_nat num_sections)
         (clamp_section num_sections (r_Section_ID row)) ;;
  Ok (i, j).

(** The contents of one position of the three arrays. *)
Definition cells (m : Matrices) (i j : nat) : option Z * option Q * option Q :=
  (Np.get (vel_matrix m) i j, Np.get (dens_matrix m) i j, Np.get (acc_matrix m) i j).

(** The three arrays have [nr] rows of [nc] columns. *)
Definition shaped (nr nc : nat) (m : Matrices) : Prop :=
  Np.shape nr nc (vel_matrix m) /\ Np.shape nr nc (dens_matrix m)
  /\ Np.shape nr nc (acc_matrix m).

(** What the loop body stores for a row. *)
Definition written (row : StatRow) : option Z * option Q * option Q :=
  (Some (Np.int64_of_float (r_avg_v_Vel row)), Some (inject_Z (r_count row)),
   Some (r_avg_v_Acc row)).

Definition create_np_matrices (df : list StatRow) (num_lanes num_sections : Z)
    (with_ramp : bool) : result Matrices :=
  m <~ init_matrices num_lanes num_sections ;;
  Py.for_each (fill_row num_sections with_ramp) m df.

(** [np.stack([vel_matrix, dens_matrix, acc_matrix], axis=-1)]: one float
    triple per cell. *)
Definition stack (m : Matrices) : list (list (Q * Q * Q)) :=
  zip_with (fun vd a => zip_with (fun vd' a' => (inject_Z vd'.1, vd'.2, a')) vd a)
    (zip_with zip (vel_matrix m) (dens_matrix m)) (acc_matrix m).

Definition rdd_to_np_matrices (key : Z) (iter : list StatRow) (num_lanes num_sections : Z)
    (with_ramp : bool) : result (Z * list (list (Q * Q * Q))) :=
  m <~ init_matrices num_lanes num_sections ;;
  m' <~ Py.for_each (fill_row num_sections with_ramp) m iter ;;
  Ok (key, stack m').

(** The column a point ends up in: its [Section_ID] from [section_agg],
    passed through the clamp of the renderers. *)
Definition section_index_used (num_sections : Z) (Distance : Q) (width : Z) : option Z :=
  clamp_section num_sections <$> Section_ID Distance width.

End Utils.

(** ** src/datapreprocessing.py (the older copy of the batch path) *)

Module Legacy.

(** [section_agg] has the same column expressions as the one of [Utils]. *)
Definition section_agg (df : list Utils.Point) (max_dist num_section : Z)
  : result (list Utils.FineRow) :=
  width <~ Py.floordiv max_dist num_section ;;
  Ok (Utils.section_row <$> F.groupBy (Utils.section_key width) df).

(** [timewindow_agg] filters on [end * 1000] without the 45 of [Utils]. *)
Definition timewindow_agg (df : list Utils.FineRow) (start end_ timewindow : Z)
  : list Utils.WindowRow :=
  Utils.window_row
    <$> F.groupBy (Utils.window_key timewindow) (Utils.admitted start end_ 0 df).

(** [create_np_matrices] of the older copy: three [np.zeros] arrays (all
    float64) of 6 lanes by [num_section + 1] sections, positions found with
    [list.index]. *)
Definition create_np_matrices (df : list Utils.StatRow) (num_section : Z)
  : result (list (list Q) * list (list Q) * list (list Q)) :=
  let section_ids := seqZ 0 (num_section + 1) in
  let lane_ids := [1; 2; 3; 4; 5; 6] in
  let zeros := replicate (length lane_ids) (replicate (length section_ids) 0%Q) in
  Py.for_each
    (fun '(vel_matrix, dens_matrix, acc_matrix) row =>
       section_index <~ Py.list_index section_ids (Utils.r_Section_ID row) ;;
       lane_index <~ Py.list_index lane_ids (Utils.r_Lane_ID row) ;;
       vel <~ Np.setitem vel_matrix (Z.of_nat lane_index) (Z.of_nat section_index)
                (Utils.r_avg_v_Vel row) ;;
       dens <~ Np.setitem dens_matrix (Z.of_nat lane_index) (Z.of_nat section_index)
                (inject_Z (Utils.r_count row)) ;;
       acc <~ Np.setitem acc_matrix (Z.of_nat lane_index) (Z.of_nat section_index)
                (Utils.r_avg_v_Acc row) ;;
       Ok (vel, dens, acc))
    (zeros, zeros, zeros) df.

End Legacy.

(** ** src/realtime_aggregator_1.py

    The streaming query of [FirstWatermarkAggregator.init_job], run by
    Spark Structured Streaming 3.5.0 (the version of the packages the job
    loads) as a sequence of micro-batches.  What the source leaves to Spark
    is taken from its documented behaviour:
    - every [groupBy(...).agg(...)] of a streaming DataFrame keeps one
      aggregation buffer per key across micro-batches;
    - in [outputMode("update")] each aggregation passes on, in every
      micro-batch, one row for each key whose buffer that micro-batch
      changed, and the sink receives the rows of the last aggregation;
    - [withWatermark("datetime", delay)] keeps the greatest [datetime] seen;
      after a micro-batch the watermark becomes that maximum minus the
      delay unless it is already greater; an aggregation grouped by a window
      of the watermarked column drops the rows whose window ended at or
      before the watermark of the previous micro-batch and frees the
      buffers of the windows that ended at or before the current one.
    The fields of [self] come from [RealTimePredictor], which is not among
    the sources, and are parameters here; so is the UTC offset of
    America/Los_Angeles. *)

Module Realtime.

Record Predictor : Type := mkPredictor {
  max_dist : Z;
  num_section_splits : Z;
  num_lanes : Z;
  with_ramp : bool;
  timewindow : Z
}.

(** A row after [parse_df] and [add_dist] (the columns read later). *)
Record Point : Type := mkPoint {
  Global_Time : Z;
  Lane_ID : Z;
  v_Vel : Q;
  Distance : Q
}.

(** The buffer of [F.avg]: sum and count. *)
Definition avg_buffer : Type := Q * Z.

Definition avg_value (b : avg_buffer) : Q := (b.1 / inject_Z b.2)%Q.

Section Aggregations.

Context {K : Type} `{Countable K}.

(** One micro-batch of a streaming [groupBy(key).agg(F.avg(col))]. *)
Definition avg_update (state : gmap K avg_buffer) (rows : list (K * Q))
  : gmap K avg_buffer :=
  foldl (fun st '(k, v) =>
           let b := default (0%Q, 0) (st !! k) in
           <[k := ((b.1 + v)%Q, b.2 + 1)]> st)
        state rows.

(** The keys changed by a micro-batch. *)
Definition updated {V : Type} (rows : list (K * V)) : list K := remove_dups rows.*1.

(** The rows passed on in update mode. *)
Definition avg_output (state : gmap K avg_buffer) (keys : list K) : list (K * Q) :=
  (fun k => (k, avg_value (default (0%Q, 0) (state !! k)))) <$> keys.

(** One micro-batch of a streaming [groupBy(key).agg(F.collect_list(col))]. *)
Definition collect_update {V : Type} (state : gmap K (list V)) (rows : list (K * V))
  : gmap K (list V) :=
  foldl (fun st '(k, v) => <[k := default [] (st !! k) ++ [v]]> st) state rows.

End Aggregations.

(** The state kept between micro-batches. *)
Record State : Type := mkState {
  section_state : gmap (Z * option Z * Z) avg_buffer;
  window_state : gmap (Z * option Z * Z) avg_buffer;
  rows_state : gmap Z (list (Z * option Z * Q));
  watermark : Z;
  late_watermark : Z
}.

(** A freshly started query. *)
Definition init : State := mkState ∅ ∅ ∅ 0 0.

(** [section_agg]: rows keyed by (Global_Time, Section_ID, Lane_ID) with
    the unrounded [avg(v_Vel)]. *)
Definition section_agg (self : Predictor) (state : gmap (Z * option Z * Z) avg_buffer)
    (df : list Point)
  : result (gmap (Z * option Z * Z) avg_buffer * list ((Z * option Z * Z) * Q)) :=
  width <~ Py.floordiv (max_dist self) (num_section_splits self) ;;
  let rows :=
    (fun p => ((Global_Time p, Utils.Section_ID (Distance p) width, Lane_ID p), v_Vel p))
      <$> df in
  let state' := avg_update state rows in
  Ok (state', avg_output state' (updated rows)).

(** [convert_timestamp]: the [datetime] column in milliseconds; [tz] gives
    the UTC offset of America/Los_Angeles at an instant. *)
Definition convert_timestamp (tz : Z -> Z) (Global_Time : Z) : Z :=
  let utc := Global_Time - 3600000 in
  utc + tz utc.

(** The length in milliseconds of ["{timewindow} second"]. *)
Definition duration (self : Predictor) : Z := timewindow self * 1000.

(** [F.window(datetime, duration)]: the start of the window of [datetime]. *)
Definition window_start (self : Predictor) (datetime : Z) : Z :=
  datetime - datetime mod duration self.

(** Whether a window starting at [start] is still open at a watermark. *)
Definition open_at (self : Predictor) (wm : Z) (start : Z) : Prop :=
  wm < start + duration self.

Global Instance open_at_dec self wm start : Decision (open_at self wm start) :=
  Z_lt_dec _ _.

(** The greatest [datetime] among the rows reaching [withWatermark]. *)
Definition max_event_time (tz : Z -> Z) (df : list ((Z * option Z * Z) * Q)) : option Z :=
  match (fun r => convert_timestamp tz r.1.1.1) <$> df with
  | [] => None
  | t :: ts => Some (foldr Z.max t ts)
  end.

(** [timewindow_agg]: rows keyed by (window, Section_ID, Lane_ID) with
    [avg(avg(v_Vel))] rounded to 1 decimal; a non-positive window length is
    rejected when the query is built. *)
Definition timewindow_agg (self : Predictor) (tz : Z -> Z) (late_wm wm : Z)
    (state : gmap (Z * option Z * Z) avg_buffer) (df : list ((Z * option Z * Z) * Q))
  : result (gmap (Z * option Z * Z) avg_buffer * list ((Z * option Z * Z) * Q)) :=
  if timewindow self <=? 0 then Raise AnalysisException
  else
    let rows :=
      (fun '((t, s, l), v) => ((window_start self (convert_timestamp tz t), s, l), v))
        <$> df in
    let on_time := filter (fun r => open_at self late_wm r.1.1.1) rows in
    let state' := avg_update state on_time in
    let out := (fun '(k, v) => (k, F.round v 1)) <$> avg_output state' (updated on_time) in
    Ok (filter (fun kv => open_at self wm kv.1.1.1) state', out).

(** The local function [to_3d_np] of [rows_to_np_df]; a row is
    (Lane_ID, Section_ID, avg(v_Vel)). *)
Definition to_3d_np (self : Predictor) (rows : list (Z * option Z * Q))
  : result (list (list (list Z))) :=
  vel_matrix <~ Np.full (num_lanes self) (num_section_splits self + 1) 60 ;;
  filled <~ Py.for_each
      (fun vel_matrix '(Lane_ID, Section_ID, avg_v_Vel) =>
         let lane_index := Lane_ID - 1 in
         if negb (with_ramp self) && (lane_index =? 5) then Ok vel_matrix
         else
           match Section_ID with
           | Some s =>
               let section_index :=
                 if s =? num_section_splits self + 1 then s - 1 else s in
               Np.setitem vel_matrix lane_index section_index
                 (Np.int64_of_float avg_v_Vel)
           | None =>
               Np.setitem_newaxis vel_matrix lane_index (Np.int64_of_float avg_v_Vel)
           end)
      vel_matrix rows ;;
  Ok ((fun row : list Z => (fun v : Z => [v]) <$> row) <$> filled).

(** [rows_to_np_df]: one row per window with the matrix of its collected
    rows. *)
Definition rows_to_np_df (self : Predictor) (wm : Z)
    (state : gmap Z (list (Z * option Z * Q))) (df : list ((Z * option Z * Z) * Q))
  : result (gmap Z (list (Z * option Z * Q)) * list (Z * list (list (list Z)))) :=
  let rows := (fun '((w, s, l), v) => (w, (l, s, v))) <$> df in
  let state' := collect_update state rows in
  out <~ Py.map_each
           (fun w => mat <~ to_3d_np self (default [] (state' !! w)) ;; Ok (w, mat))
           (updated rows) ;;
  Ok (filter (fun kv => open_at self wm kv.1) state', out).

(** One micro-batch of the query started by [init_job]: the new state and
    the records written to the sink, keyed by window. *)
Definition trigger (self : Predictor) (tz : Z -> Z) (st : State) (batch : list Point)
  : result (State * list (Z * list (list (list Z)))) :=
  r1 <~ section_agg self (section_state st) batch ;;
  let '(s1, section_agg_df) := r1 in
  r2 <~ timewindow_agg self tz (late_watermark st) (watermark st) (window_state st)
          section_agg_df ;;
  let '(s2, timewindow_agg_df) := r2 in
  r3 <~ rows_to_np_df self (watermark st) (rows_state st) timewindow_agg_df ;;
  let '(s3, np_df) := r3 in
  let wm' :=
    match max_event_time tz section_agg_df with
    | Some t => Z.max (watermark st) (t - duration self)
    | None => watermark st
    end in
  Ok (mkState s1 s2 s3 wm' (watermark st), np_df).

(** The query over a sequence of micro-batches: the final state and what
    each micro-batch wrote to the sink. *)
Fixpoint run (self : Predictor) (tz : Z -> Z) (st : State) (batches : list (list Point))
  : result (State * list (list (Z * list (list (list Z))))) :=
  match batches with
  | [] => Ok (st, [])
  | batch :: rest =>
      r <~ trigger self tz st batch ;;
      rs <~ run self tz r.1 rest ;;
      Ok (rs.1, r.2 :: rs.2)
  end.

End Realtime.

(** ** The reduction by partial (sum, count) accumulators

    This module follows the words of the specification, not the source:
    "implement as sum+count accumulation so partial results from different
    partitions can be merged by simple addition before dividing".  It is
    compared below with [F.avg] and [F.count] as [Utils.section_agg] uses
    them. *)

Module Partial.

(** A partial result: the sum of the values seen and their number. *)
Definition acc : Type := Q * Z.

Definition zero : acc := (0%Q, 0).

Definition add_value (a : acc) (v : Q) : acc := ((a.1 + v)%Q, a.2 + 1).

(** One pass over the values of a partition. *)
Definition of_values (vs : list Q) : acc := foldl add_value zero vs.

Definition merge (a b : acc) : acc := ((a.1 + b.1)%Q, a.2 + b.2).

(** A way of reducing a group: its leaves are the partitions, each reduced
    in one pass, and every inner node merges two partial results. *)
Inductive plan : Type :=
| Part (vs : list Q)
| Merge (l r : plan).

Fixpoint values (t : plan) : list Q :=
  match t with
  | Part vs => vs
  | Merge l r => values l ++ values r
  end.

Fixpoint reduce (t : plan) : acc :=
  match t with
  | Part vs => of_values vs
  | Merge l r => merge (reduce l) (reduce r)
  end.

(** Dividing at the end, then rounding as [section_agg] does. *)
Definition finalize (a : acc) (scale : nat) : Q :=
  F.round (a.1 / inject_Z a.2) scale.

End Partial.

(** ** src/utils/datapreprocessing_utils.py: unit conversion, filters and
    the time-window column *)

Module Prep.

(** A row of the data set with the columns these functions read. *)
Record Row : Type := mkRow {
  Location : string;
  ElapsedTime : Z;
  hour : Z;
  datetime : Z;
  Distance : Q;
  Vehicle_ID : Z;
  Lane_ID : Z;
  v_Vel : Q;
  v_Acc : Q;
  lat : Q;
  lon : Q
}.

(** The columns selected by [hour_filter]. *)
Record HourRow : Type := mkHourRow {
  h_Location : string;
  h_ElapsedTime : Z;
  h_hour : Z;
  h_Distance : Q;
  h_Vehicle_ID : Z;
  h_Lane_ID : Z;
  h_v_Vel : Q;
  h_v_Acc : Q;
  h_lat : Q;
  h_lon : Q
}.

(** The columns selected by [lane_filter]. *)
Record LaneRow : Type := mkLaneRow {
  l_Location : string;
  l_ElapsedTime : Z;
  l_hour : Z;
  l_Distance : Q;
  l_Vehicle_ID : Z;
  l_Lane_ID : Z;
  l_v_Vel : Q;
  l_v_Acc : Q
}.

(** The literal 1.46666667 (feet per second in one mile per hour). *)
Definition fps_per_mph : Q := 146666667 # 100000000.

(** [convert_to_mph]: [v_Vel] and [v_Acc] divided by 1.46666667. *)
Definition convert_to_mph (df : list Row) : list Row :=
  (fun r =>
     mkRow (Location r) (ElapsedTime r) (hour r) (datetime r) (Distance r) (Vehicle_ID r)
       (Lane_ID r) (v_Vel r / fps_per_mph) (v_Acc r / fps_per_mph) (lat r) (lon r))
    <$> df.

(** The [Lane_ID] column written by [us101_filter]. *)
Definition merged_lane (lane : Z) : Z :=
  if decide (lane ∈ [7; 8]) then 6 else lane.

(** [us101_filter]: the rows of location "us-101", lanes 7 and 8 renamed 6. *)
Definition us101_filter (df : list Row) : list Row :=
  (fun r =>
     mkRow (Location r) (ElapsedTime r) (hour r) (datetime r) (Distance r) (Vehicle_ID r)
       (merged_lane (Lane_ID r)) (v_Vel r) (v_Acc r) (lat r) (lon r))
    <$> filter (fun r => Location r = "us-101"%string) df.

(** The failure of [hour_filter]: its local variable [deduction] is only
    assigned when [location] is "us-101". *)
Inductive name_error : Type := UnboundLocalError.

(** Ascending order on an integer column. *)
Definition le_by {A : Type} (col : A -> Z) (a b : A) : Prop := col a <= col b.

Global Instance le_by_dec {A : Type} (col : A -> Z) (a b : A) : Decision (le_by col a b) :=
  Z_le_dec (col a) (col b).

(** [df.sort(col)]: some ascending arrangement of the rows (Spark does not
    say which when values are equal); a merge sort here. *)
Definition sort_by {A : Type} (col : A -> Z) (df : list A) : list A :=
  merge_sort (le_by col) df.

(** [hour_filter]: the rows whose hour is listed, with the selected
    columns and [ElapsedTime] reduced by the deduction, sorted by
    [ElapsedTime]. *)
Definition hour_filter (df : list Row) (location : string) (hour_ : list Z)
  : name_error + list HourRow :=
  if decide (location = "us-101"%string) then
    let deduction := 5413844400 in
    inr (sort_by h_ElapsedTime
           ((fun r =>
               mkHourRow (Location r) (ElapsedTime r - deduction) (hour r) (Distance r)
                 (Vehicle_ID r) (Lane_ID r) (v_Vel r) (v_Acc r) (lat r) (lon r))
              <$> sort_by datetime (filter (fun r => hour r ∈ hour_) df)))
  else inl UnboundLocalError.

(** [lane_filter]: the rows of one lane, sorted by [ElapsedTime]. *)
Definition lane_filter (df : list Row) (lane_id : Z) : list LaneRow :=
  sort_by l_ElapsedTime
    (filter (fun r => l_Lane_ID r = lane_id)
       ((fun r =>
           mkLaneRow (Location r) (ElapsedTime r) (hour r) (Distance r) (Vehicle_ID r)
             (Lane_ID r) (v_Vel r) (v_Acc r))
          <$> df)).

(** [add_timewindow_col]: the rows of [[start * 1000, end * 1000)], each
    with its [TimeWindow]. *)
Definition add_timewindow_col (df : list Utils.FineRow) (start end_ timewindow : Z)
  : list (Utils.FineRow * option Z) :=
  (fun r => (r, Utils.TimeWindow (Utils.f_ElapsedTime r) timewindow))
    <$> filter (fun r => start * 1000 <= Utils.f_ElapsedTime r
                         /\ Utils.f_ElapsedTime r < end_ * 1000) df.

End Prep.

(** ** src/datapreprocessing.py: [timewindow_pivot] *)

Module Pivot.

(** A row of a pivoted DataFrame: the grouping columns and one column per
    pivot value, NULL where the group has no row with that value. *)
Record PivotRow (V : Type) : Type := mkPivotRow {
  TimeWindow : option Z;
  Section_ID : option Z;
  Lane_ID : Z;
  lanes : list (Z * option V)
}.
Global Arguments mkPivotRow {V} _ _ _ _.
Global Arguments TimeWindow {V} _.
Global Arguments Section_ID {V} _.
Global Arguments Lane_ID {V} _.
Global Arguments lanes {V} _.

(** The pivot columns: the distinct [Lane_ID] values of the DataFrame, in
    ascending order. *)
Definition pivot_values (df : list Utils.WindowRow) : list Z :=
  merge_sort Z.le (remove_dups (Utils.w_Lane_ID <$> df)).

(** [df.groupBy("TimeWindow", "Section_ID", "Lane_ID").pivot("Lane_ID").agg(f)];
    [agg] is the aggregate over the rows of a group that have the pivot
    value, NULL when there is none. *)
Definition pivot {V : Type} (agg : list Utils.WindowRow -> V) (df : list Utils.WindowRow)
  : list (PivotRow V) :=
  (fun g : (option Z * option Z * Z) * list Utils.WindowRow =>
     mkPivotRow g.1.1.1 g.1.1.2 g.1.2
       ((fun p =>
           (p, match filter (fun r => Utils.w_Lane_ID r = p) g.2 with
               | [] => None
               | rows => Some (agg rows)
               end))
          <$> pivot_values df))
    <$> F.groupBy Utils.coarse_key df.

(** [timewindow_pivot]: the rows of one time window, pivoted by lane, for
    velocity, count and acceleration. *)
Definition timewindow_pivot (df : list Utils.WindowRow) (timewindow_id : Z)
  : list (PivotRow Q) * list (PivotRow Z) * list (PivotRow Q) :=
  let df := filter (fun r => Utils.w_TimeWindow r = Some timewindow_id) df in
  let vel_df := pivot (fun rows => F.round (F.avg (Utils.w_avg_v_Vel <$> rows)) 1) df in
  let dens_df := pivot (fun rows => F.count rows) df in
  let acc_df := pivot (fun rows => F.round (F.avg (Utils.w_avg_v_Acc <$> rows)) 2) df in
  (vel_df, dens_df, acc_df).

End Pivot.

(** * Properties *)

(** ** Rounding, truncation and SQL division *)

Section Numbers.

Local Open Scope Z_scope.

Local Ltac euclid := Z.to_euclidean_division_equations; lia.

Lemma Qfloor_Qmake (a : Z) (b : positive) : Qfloor (a # b) = a / Zpos b.
Proof. reflexivity. Qed.

Lemma Qceiling_Qmake (a : Z) (b : positive) : Qceiling (a # b) = - (- a / Zpos b).
Proof. reflexivity. Qed.

Lemma half_up_inject_Z (n : Z) : F.half_up (inject_Z n) = n.
Proof.
  unfold F.half_up, inject_Z, Qplus, Qminus, Qopp, Qplus. cbn [Qnum Qden].
  destruct (Qle_bool 0 (n # 1)).
  - rewrite Qfloor_Qmake. change (Zpos (1 * 2)) with 2. euclid.
  - rewrite Qceiling_Qmake. change (Zpos (1 * 2)) with 2. euclid.
Qed.

Lemma round_integer_id (n : Z) : F.round_integer n = n.
Proof. apply half_up_inject_Z. Qed.

Lemma Qtrunc_floor_ceiling (q : Q) :
  F.Qtrunc q = if Qle_bool 0 q then Qfloor q else Qceiling q.
Proof.
  destruct q as [a b]. unfold F.Qtrunc. cbn [Qnum Qden].
  destruct (Qle_bool 0 (a # b)) eqn:E.
  - apply Qle_bool_iff in E. unfold Qle in E. cbn in E.
    rewrite Qfloor_Qmake. apply Z.quot_div_nonneg; lia.
  - assert (a < 0) as Ha.
    { destruct (Z_lt_ge_dec a 0) as [H | H]; [exact H | exfalso].
      assert (Qle_bool 0 (a # b) = true) as E'.
      { apply Qle_bool_iff. unfold Qle. cbn. lia. }
      congruence. }
    rewrite Qceiling_Qmake.
    rewrite <- (Z.opp_involutive a) at 1. rewrite Z.quot_opp_l by lia.
    f_equal. apply Z.quot_div_nonneg; lia.
Qed.

Lemma Qtrunc_nonneg (q : Q) : (0 <= q)%Q -> F.Qtrunc q = Qfloor q.
Proof.
  intros H. rewrite Qtrunc_floor_ceiling.
  apply Qle_bool_iff in H. now rewrite H.
Qed.

Lemma Qle_bool_comp (x y : Q) : (x == y)%Q -> Qle_bool 0 x = Qle_bool 0 y.
Proof.
  intros E. destruct (Qle_bool 0 x) eqn:Hx, (Qle_bool 0 y) eqn:Hy; try reflexivity.
  - apply Qle_bool_iff in Hx. rewrite E in Hx. apply Qle_bool_iff in Hx. congruence.
  - apply Qle_bool_iff in Hy. rewrite <- E in Hy. apply Qle_bool_iff in Hy. congruence.
Qed.

Lemma Qtrunc_comp (x y : Q) : (x == y)%Q -> F.Qtrunc x = F.Qtrunc y.
Proof.
  intros E. rewrite !Qtrunc_floor_ceiling, (Qle_bool_comp x y E).
  destruct (Qle_bool 0 y); now rewrite E.
Qed.

Lemma half_up_comp (x y : Q) : (x == y)%Q -> F.half_up x = F.half_up y.
Proof.
  intros E. unfold F.half_up. rewrite (Qle_bool_comp x y E).
  destruct (Qle_bool 0 y); now rewrite E.
Qed.

Lemma round_comp (x y : Q) (scale : nat) : (x == y)%Q -> F.round x scale = F.round y scale.
Proof.
  intros E. unfold F.round. f_equal. apply half_up_comp. now rewrite E.
Qed.

(** HALF_UP really is a nearest integer: it is within one half of its
    argument. *)
Lemma half_up_nearest (q : Q) : (Qabs (inject_Z (F.half_up q) - q) <= 1 # 2)%Q.
Proof.
  unfold F.half_up. apply Qabs_Qle_condition.
  destruct (Qle_bool 0 q).
  - pose proof (Qfloor_le (q + (1 # 2))) as Hl.
    pose proof (Qlt_floor (q + (1 # 2))) as Hu.
    rewrite inject_Z_plus in Hu. change (inject_Z 1) with 1%Q in Hu. split; lra.
  - pose proof (Qle_ceiling (q - (1 # 2))) as Hl.
    pose proof (Qceiling_lt (q - (1 # 2))) as Hu.
    unfold Z.sub in Hu. rewrite inject_Z_plus in Hu.
    change (inject_Z (- (1))) with (- (1))%Q in Hu. split; lra.
Qed.

(** [F.round] at [scale] decimals is within half a unit of the last kept
    decimal of its argument. *)
Lemma round_nearest (q : Q) (scale : nat) :
  (Qabs (F.round q scale - q) <= 1 # (2 * Z.to_pos (10 ^ Z.of_nat scale)))%Q.
Proof.
  unfold F.round.
  set (t := 10 ^ Z.of_nat scale).
  assert (0 < t) as Ht by (apply Z.pow_pos_nonneg; lia).
  set (P := Z.to_pos t). assert (Zpos P = t) as HP by (apply Z2Pos.id; exact Ht).
  set (h := F.half_up (q * inject_Z t)).
  pose proof (half_up_nearest (q * inject_Z t)) as Hh. fold h in Hh.
  assert ((inject_Z t * (1 # P) == 1)%Q) as Hinv.
  { unfold Qeq, Qmult, inject_Z. cbn. rewrite <- HP. lia. }
  assert (((h # P) - q == (inject_Z h - q * inject_Z t) * (1 # P))%Q) as ->.
  { rewrite (Qmake_Qdiv h P). unfold Qdiv. rewrite HP.
    assert ((/ inject_Z t == 1 # P)%Q) as ->.
    { unfold Qinv, inject_Z. cbn. rewrite <- HP. reflexivity. }
    transitivity (inject_Z h * (1 # P) - q * (inject_Z t * (1 # P)))%Q; [| ring].
    rewrite Hinv. ring. }
  rewrite Qabs_Qmult. rewrite (Qabs_pos (1 # P)) by discriminate.
  assert ((1 # (2 * P) == (1 # 2) * (1 # P))%Q) as -> by reflexivity.
  apply Qmult_le_compat_r; [exact Hh | discriminate].
Qed.

End Numbers.

(** ** Section and window identifiers *)

Section Bucketing.

Local Open Scope Z_scope.

Lemma div_nonzero (a : Q) (b : Z) : b <> 0 -> F.div a (inject_Z b) = Some (a / inject_Z b)%Q.
Proof.
  intros Hb. unfold F.div.
  destruct (Qeq_bool (inject_Z b) 0) eqn:E; [exfalso | reflexivity].
  apply Qeq_bool_eq in E. unfold Qeq in E. cbn in E. lia.
Qed.

Lemma div_zero (a : Q) : F.div a (inject_Z 0) = None.
Proof. reflexivity. Qed.

Lemma Qtrunc_div_Z (a b : Z) : b <> 0 -> F.Qtrunc (inject_Z a / inject_Z b) = Z.quot a b.
Proof.
  intros Hb. unfold F.Qtrunc, Qdiv, Qmult, Qinv, inject_Z.
  destruct b as [| p | p]; [lia | |]; cbn [Qnum Qden].
  - now rewrite Z.mul_1_r.
  - change (Z.neg p) with (- Z.pos p). rewrite Z.quot_opp_r by lia.
    replace (a * -1) with (- a) by lia. now rewrite Z.quot_opp_l by lia.
Qed.

Lemma saturate_int_range (z : Z) : F.int_min <= z <= F.int_max -> F.saturate_int z = z.
Proof. unfold F.saturate_int. lia. Qed.

Lemma saturate_int_between (z : Z) : 0 <= z -> 0 <= F.saturate_int z <= z.
Proof. unfold F.saturate_int, F.int_min, F.int_max. lia. Qed.

Lemma Section_ID_cast (d : Q) (w : Z) :
  w <> 0 -> Utils.Section_ID d w = Some (F.cast_integer (d / inject_Z w)).
Proof.
  intros Hw. unfold Utils.Section_ID. rewrite div_nonzero by exact Hw.
  cbn. now rewrite round_integer_id.
Qed.

Lemma TimeWindow_cast (t tw : Z) :
  tw * 1000 <> 0 -> Utils.TimeWindow t tw = Some (F.saturate_int (Z.quot t (tw * 1000))).
Proof.
  intros Hw. unfold Utils.TimeWindow. rewrite div_nonzero by exact Hw.
  cbn. rewrite round_integer_id. unfold F.cast_integer.
  now rewrite Qtrunc_div_Z by exact Hw.
Qed.

Lemma quotient_nonneg (d : Q) (w : Z) : (0 <= d)%Q -> 0 < w -> (0 <= d / inject_Z w)%Q.
Proof.
  intros Hd Hw. apply Qle_shift_div_l.
  - change 0%Q with (inject_Z 0). now rewrite <- Zlt_Qlt.
  - now rewrite Qmult_0_l.
Qed.




(** C4, the claim as stated fails: with [maxDistance = 1000] and 10
    sections (width 100) a distance of 1100 gets the raw id 11, which the
    clamp leaves alone. *)
Lemma section_index_out_of_range :
  ~ (forall (d : Q) (max_dist n : Z), (0 <= d)%Q -> 0 < max_dist / n ->
       exists s, Utils.section_index_used n d (max_dist / n) = Some s /\ 0 <= s < n).
Proof.
  intros H.
  destruct (H 1100%Q 1000 10 ltac:(discriminate) ltac:(reflexivity)) as (s & Hs & Hr).
  vm_compute in Hs. injection Hs as <-. lia.
Qed.

(** A distance within [maxDistance] does not suffice: with
    [maxDistance = 29] and 10 sections the width is 2 and a distance of 29
    gets section 14. *)
Lemma distance_below_max_out_of_range :
  Utils.section_index_used 10 29 (29 / 10) = Some 14.
Proof. reflexivity. Qed.

(** C4 (amended): for a positive bucket width [w], [numSections >= 1] and
    every distance [0 <= d < (numSections + 1) * w], the section index used
    after the clamp satisfies [0 <= sectionId < numSections]; with
    [maxDistance = 1000], [numSections = 10] and [d = maxDistance] the raw
    id 10 is clamped to 9. *)
Theorem section_index_in_range (d : Q) (max_dist n : Z) :
  1 <= n -> 0 < max_dist / n ->
  (0 <= d)%Q -> (d < inject_Z ((n + 1) * (max_dist / n)))%Q ->
  (exists s, Utils.section_index_used n d (max_dist / n) = Some s /\ 0 <= s < n)
  /\ Utils.Section_ID 1000 (1000 / 10) = Some 10
  /\ Utils.section_index_used 10 1000 (1000 / 10) = Some 9.
Proof.
  intros Hn Hw Hd Hup. split; [| split; reflexivity].
  set (w := max_dist / n) in *.
  unfold Utils.section_index_used. rewrite Section_ID_cast by lia.
  eexists; split; [reflexivity |].
  unfold F.cast_integer. rewrite Qtrunc_nonneg by now apply quotient_nonneg.
  pose proof (Qfloor_resp_le _ _ (quotient_nonneg d w Hd Hw)) as H0.
  change (Qfloor 0) with 0 in H0.
  assert (Qfloor (d / inject_Z w) < n + 1) as H1.
  { rewrite Zlt_Qlt. eapply Qle_lt_trans; [apply Qfloor_le |].
    apply Qlt_shift_div_r.
    - change 0%Q with (inject_Z 0). now rewrite <- Zlt_Qlt.
    - now rewrite <- inject_Z_mult. }
  pose proof (saturate_int_between _ H0) as H2.
  unfold Utils.clamp_section.
  destruct (Z.eqb_spec (F.saturate_int (Qfloor (d / inject_Z w))) n); lia.
Qed.

Lemma section_index_in_range_witness :
  1 <= 10 /\ 0 < 1000 / 10 /\ (0 <= 1000)%Q
  /\ (1000 < inject_Z ((10 + 1) * (1000 / 10)))%Q
  /\ exists s, Utils.section_index_used 10 1000 (1000 / 10) = Some s /\ 0 <= s < 10.
Proof.
  repeat (split; [first [lia | reflexivity | discriminate] |]).
  apply (section_index_in_range 1000 1000 10);
    first [lia | reflexivity | discriminate].
Defined.

(** C5, the claim as stated fails: a record at 20000 ms with a window of
    30 s is admitted, its quotient 2/3 has nearest integer 1, and it is
    given window 0. *)
Lemma time_window_not_nearest :
  ~ (forall (df : list Utils.FineRow) (start end_ timewindow : Z) (r : Utils.FineRow),
       r ∈ Utils.admitted start end_ 45 df ->
       Utils.TimeWindow (Utils.f_ElapsedTime r) timewindow
       = Some (F.half_up (inject_Z (Utils.f_ElapsedTime r) / inject_Z (timewindow * 1000)))).
Proof.
  intros H.
  set (r := Utils.mkFineRow 20000 (Some 2) 1 50 0 3).
  specialize (H [r] 0 100 30 r).
  vm_compute in H. specialize (H ltac:(constructor)). discriminate.
Qed.

(** C5 (amended): for every record admitted by the batch WindowAggregator
    (by either copy: the one of datapreprocessing_utils.py, whose upper
    bound is [end * 1000 - 45], or the one of datapreprocessing.py, whose
    upper bound is [end * 1000]) and a non-zero window size, the window id
    is the quotient [elapsedTimeMs / (windowSize * 1000)] with its fraction
    cut off by the integer cast, which saturates at the bounds of a 32-bit
    integer; the rounding applied afterwards is the identity.  For
    [start >= 0] and a positive window size this is
    [floor(elapsedTimeMs / windowSizeMs)] as long as that floor is at most
    2147483647, and 2147483647 beyond. *)
Theorem time_window_truncates (df : list Utils.FineRow) (start end_ timewindow : Z)
    (r : Utils.FineRow) :
  r ∈ Utils.admitted start end_ 45 df \/ r ∈ Utils.admitted start end_ 0 df ->
  timewindow * 1000 <> 0 ->
  Utils.TimeWindow (Utils.f_ElapsedTime r) timewindow
  = Some (F.saturate_int (Z.quot (Utils.f_ElapsedTime r) (timewindow * 1000)))
  /\ (0 <= start -> 0 < timewindow ->
      (Utils.f_ElapsedTime r / (timewindow * 1000) <= F.int_max ->
       Utils.TimeWindow (Utils.f_ElapsedTime r) timewindow
       = Some (Utils.f_ElapsedTime r / (timewindow * 1000)))
      /\ (F.int_max < Utils.f_ElapsedTime r / (timewindow * 1000) ->
          Utils.TimeWindow (Utils.f_ElapsedTime r) timewindow = Some F.int_max)).
Proof.
  intros Hr Hw. split; [now apply TimeWindow_cast |].
  intros Hs Htw. rewrite TimeWindow_cast by exact Hw.
  assert (0 <= Utils.f_ElapsedTime r) as Hlo.
  { destruct Hr as [Hr | Hr]; apply list_elem_of_filter in Hr as [[Hlo _] _]; lia. }
  rewrite Z.quot_div_nonneg by lia.
  assert (0 <= Utils.f_ElapsedTime r / (timewindow * 1000)) by (apply Z.div_pos; lia).
  split; intros Hmax; f_equal.
  - apply saturate_int_range. unfold F.int_min. lia.
  - unfold F.saturate_int, F.int_min, F.int_max in *. lia.
Qed.

Lemma time_window_truncates_witness :
  let r := Utils.mkFineRow 99990 (Some 2) 1 50 0 3 in
  (r ∈ Utils.admitted 0 100 45 [r] \/ r ∈ Utils.admitted 0 100 0 [r])
  /\ 30 * 1000 <> 0
  /\ Utils.TimeWindow 99990 30 = Some (F.saturate_int (Z.quot 99990 (30 * 1000)))
  /\ Utils.TimeWindow 99990 30 = Some (99990 / (30 * 1000)).
Proof.
  intros r.
  assert (r ∈ Utils.admitted 0 100 0 [r]) as Hr.
  { apply list_elem_of_filter. split; [cbn; lia | constructor]. }
  destruct (time_window_truncates [r] 0 100 30 r (or_intror Hr) ltac:(lia)) as [H1 H2].
  split; [right; exact Hr |]. split; [lia |]. split; [exact H1 |].
  apply (H2 ltac:(lia) ltac:(lia)). vm_compute. discriminate.
Defined.

End Bucketing.

(** ** Grouping and the two batch aggregations *)

Section Aggregation.

Local Open Scope Z_scope.

Context {R K : Type} `{EqDecision K} (key : R -> K).

Lemma groupBy_keys_NoDup (df : list R) : NoDup (F.groupBy key df).*1.
Proof.
  unfold F.groupBy. rewrite <- list_fmap_compose.
  erewrite list_fmap_ext; [rewrite list_fmap_id; apply NoDup_remove_dups |].
  reflexivity.
Qed.

Lemma elem_of_groupBy (df : list R) (k : K) (g : list R) :
  (k, g) ∈ F.groupBy key df <->
  (exists r, r ∈ df /\ key r = k) /\ g = filter (fun r => key r = k) df.
Proof.
  unfold F.groupBy. rewrite list_elem_of_fmap. split.
  - intros (k' & [= -> ->] & Hk). rewrite elem_of_remove_dups in Hk.
    apply list_elem_of_fmap in Hk as (r & -> & Hr). eauto.
  - intros ((r & Hr & <-) & ->). exists (key r). split; [reflexivity |].
    rewrite elem_of_remove_dups. apply list_elem_of_fmap. eauto.
Qed.

Lemma groupBy_group_nonempty (df : list R) (k : K) (g : list R) :
  (k, g) ∈ F.groupBy key df -> g <> [].
Proof.
  intros ((r & Hr & Hk) & ->)%elem_of_groupBy Hnil.
  exact (filter_nil_not_elem_of (fun r' => key r' = k) df r Hnil Hk Hr).
Qed.

Lemma groupBy_covers (df : list R) (r : R) :
  r ∈ df -> (key r, filter (fun r' => key r' = key r) df) ∈ F.groupBy key df.
Proof. intros Hr. apply elem_of_groupBy. eauto. Qed.

End Aggregation.

Section BatchAggregation.

Local Open Scope Z_scope.

Import Utils.

Lemma section_agg_total (df : list Point) (max_dist n : Z) :
  n <> 0 ->
  section_agg df max_dist n
  = Ok (section_row <$> F.groupBy (section_key (max_dist / n)) df).
Proof.
  intros Hn. unfold section_agg, Py.floordiv.
  destruct (Z.eqb_spec n 0); [contradiction | reflexivity].
Qed.

Lemma section_row_key (k : Z * option Z * Z) (g : list Point) :
  fine_key (section_row (k, g)) = k.
Proof. now destruct k as [[t s] l]. Qed.

Lemma window_row_key (k : option Z * option Z * Z) (g : list FineRow) :
  coarse_key (window_row (k, g)) = k.
Proof. now destruct k as [[t s] l]. Qed.

(** C7, the claim as stated fails on the streaming path it cites: two
    points of one group with velocities 50.3 and 50.4 leave
    [FirstWatermarkAggregator.section_agg] with the average 50.35, which is
    not rounded to one decimal (that would be 50.4); the row it returns has
    neither an average acceleration nor a count. *)
Lemma streaming_section_agg_not_rounded :
  ~ (forall (self : Realtime.Predictor) (df : list Realtime.Point)
            (st : gmap (Z * option Z * Z) Realtime.avg_buffer)
            (out : list ((Z * option Z * Z) * Q)) (k : Z * option Z * Z) (v : Q),
       Realtime.section_agg self ∅ df = Ok (st, out) -> (k, v) ∈ out ->
       (v == F.round
               (F.avg (Realtime.v_Vel
                         <$> filter (fun p =>
                                       (Realtime.Global_Time p,
                                        Section_ID (Realtime.Distance p)
                                          (Realtime.max_dist self
                                           / Realtime.num_section_splits self),
                                        Realtime.Lane_ID p) = k) df)) 1)%Q).
Proof.
  intros H.
  set (self := Realtime.mkPredictor 1000 10 6 true 30).
  set (df := [Realtime.mkPoint 0 1 (503 # 10) 250; Realtime.mkPoint 0 1 (504 # 10) 260]).
  destruct (Realtime.section_agg self ∅ df) as [[st out] | e] eqn:E;
    [| vm_compute in E; discriminate E].
  assert (out = [((0, Some 2, 1), 10070 # 200)]) as Hout.
  { pose proof E as E'. vm_compute in E'. now injection E' as _ <-. }
  specialize (H self df st out (0, Some 2, 1) (10070 # 200) E).
  rewrite Hout in H. specialize (H ltac:(left)).
  vm_compute in H. discriminate H.
Qed.

(** C7 (amended): for every group of points sharing (ElapsedTime,
    Section_ID, Lane_ID), the batch [section_agg] returns one row whose
    average velocity is the arithmetic mean of the group's velocities
    rounded to 1 decimal, whose average acceleration is the mean of its
    accelerations rounded to 2 decimals and whose count is the number of
    points of the group; every point belongs to the group of some returned
    row; three points with velocities 50, 55 and 60 in one group give 55.0
    and count 3. *)
Theorem section_agg_group_stats (df : list Point) (max_dist n : Z) :
  n <> 0 ->
  exists out,
    section_agg df max_dist n = Ok out
    /\ NoDup (fine_key <$> out)
    /\ (forall p, p ∈ df ->
          exists o, o ∈ out /\ fine_key o = section_key (max_dist / n) p)
    /\ (forall o, o ∈ out ->
          let g := filter (fun p => section_key (max_dist / n) p = fine_key o) df in
          g <> []
          /\ f_avg_v_Vel o
             = F.round (F.sum (p_v_Vel <$> g) / inject_Z (Z.of_nat (length g))) 1
          /\ f_avg_v_Acc o
             = F.round (F.sum (p_v_Acc <$> g) / inject_Z (Z.of_nat (length g))) 2
          /\ f_count o = Z.of_nat (length g))
    /\ (exists o,
          section_agg [mkPoint 0 6 250 50 1; mkPoint 0 6 260 55 0; mkPoint 0 6 270 60 (-1)]
            1000 10 = Ok [o]
          /\ f_avg_v_Vel o = 550 # 10 /\ f_count o = 3).
Proof.
  intros Hn. eexists. split; [now apply section_agg_total |].
  set (key := section_key (max_dist / n)).
  split; [| split; [| split]].
  - rewrite <- list_fmap_compose.
    erewrite list_fmap_ext; [apply (groupBy_keys_NoDup key df) |].
    intros i [k g] _. apply section_row_key.
  - intros p Hp. exists (section_row (key p, filter (fun p' => key p' = key p) df)).
    split; [| apply section_row_key].
    apply list_elem_of_fmap_2, groupBy_covers, Hp.
  - intros o (kg & -> & Hkg)%list_elem_of_fmap. destruct kg as [k g].
    rewrite section_row_key. intros g'.
    pose proof (groupBy_group_nonempty key df k g Hkg) as Hne.
    apply elem_of_groupBy in Hkg as [_ Hg]. subst g'. rewrite <- Hg.
    destruct k as [[t sid] l]. cbn. unfold F.avg. rewrite !length_fmap.
    repeat split; exact Hne.
  - eexists. split; [vm_compute; reflexivity |]. split; reflexivity.
Qed.

Lemma section_agg_group_stats_witness :
  10 <> 0
  /\ exists out,
       section_agg [mkPoint 0 6 250 50 1; mkPoint 0 6 260 55 0; mkPoint 0 1 270 60 (-1)]
         1000 10 = Ok out
       /\ NoDup (fine_key <$> out).
Proof.
  split; [lia |].
  destruct (section_agg_group_stats
              [mkPoint 0 6 250 50 1; mkPoint 0 6 260 55 0; mkPoint 0 1 270 60 (-1)]
              1000 10 ltac:(lia)) as (out & H1 & H2 & _).
  exists out. split; assumption.
Defined.

(** C1, the claim as stated fails: a window holding a single fine bucket of
    3 points is given the count 1, not 3. *)
Lemma window_count_not_sum_of_counts :
  ~ (forall (df : list FineRow) (start end_ timewindow : Z) (o : WindowRow),
       o ∈ timewindow_agg df start end_ timewindow ->
       w_count o
       = foldr Z.add 0
           (f_count <$> filter (fun r => window_key timewindow r = coarse_key o)
                          (admitted start end_ 45 df))).
Proof.
  intros H.
  specialize (H [mkFineRow 0 (Some 2) 1 50 1 3] 0 100 30
                (mkWindowRow (Some 0) (Some 2) 1 (500 # 10) (100 # 100) 1)).
  vm_compute in H. specialize (H ltac:(constructor)). discriminate.
Qed.

(** C1 (amended): the batch WindowAggregator groups the admitted fine rows
    by (TimeWindow, Section_ID, Lane_ID) and produces, per group, the
    unweighted mean of the fine average velocities rounded to 1 decimal, the
    unweighted mean of the fine average accelerations rounded to 2 decimals,
    and a count equal to the number of fine rows of the group (the counts
    carried by the fine rows are not read).  The older copy in
    datapreprocessing.py does the same with the upper bound [end * 1000]. *)
Theorem timewindow_agg_group_stats (df : list FineRow) (start end_ timewindow : Z) :
  let stats guard out :=
    NoDup (coarse_key <$> out)
    /\ (forall r, r ∈ admitted start end_ guard df ->
          exists o, o ∈ out /\ coarse_key o = window_key timewindow r)
    /\ (forall o, o ∈ out ->
          let g := filter (fun r => window_key timewindow r = coarse_key o)
                     (admitted start end_ guard df) in
          g <> []
          /\ w_avg_v_Vel o
             = F.round (F.sum (f_avg_v_Vel <$> g) / inject_Z (Z.of_nat (length g))) 1
          /\ w_avg_v_Acc o
             = F.round (F.sum (f_avg_v_Acc <$> g) / inject_Z (Z.of_nat (length g))) 2
          /\ w_count o = Z.of_nat (length g)) in
  stats 45 (timewindow_agg df start end_ timewindow)
  /\ stats 0 (Legacy.timewindow_agg df start end_ timewindow).
Proof.
  assert (forall guard,
    let out := window_row <$> F.groupBy (window_key timewindow)
                                (admitted start end_ guard df) in
    NoDup (coarse_key <$> out)
    /\ (forall r, r ∈ admitted start end_ guard df ->
          exists o, o ∈ out /\ coarse_key o = window_key timewindow r)
    /\ (forall o, o ∈ out ->
          let g := filter (fun r => window_key timewindow r = coarse_key o)
                     (admitted start end_ guard df) in
          g <> []
          /\ w_avg_v_Vel o
             = F.round (F.sum (f_avg_v_Vel <$> g) / inject_Z (Z.of_nat (length g))) 1
          /\ w_avg_v_Acc o
             = F.round (F.sum (f_avg_v_Acc <$> g) / inject_Z (Z.of_nat (length g))) 2
          /\ w_count o = Z.of_nat (length g))) as H.
  { intros guard out. subst out.
    set (key := window_key timewindow). set (rows := admitted start end_ guard df).
    split; [| split].
    - rewrite <- list_fmap_compose.
      erewrite list_fmap_ext; [apply (groupBy_keys_NoDup key rows) |].
      intros i [k g] _. apply window_row_key.
    - intros r Hr. exists (window_row (key r, filter (fun r' => key r' = key r) rows)).
      split; [| apply window_row_key].
      apply list_elem_of_fmap_2, groupBy_covers, Hr.
    - intros o (kg & -> & Hkg)%list_elem_of_fmap. destruct kg as [k g].
      rewrite window_row_key. intros g'.
      pose proof (groupBy_group_nonempty key rows k g Hkg) as Hne.
      apply elem_of_groupBy in Hkg as [_ Hg]. subst g'. rewrite <- Hg.
      destruct k as [[t sid] l]. cbn. unfold F.avg. rewrite !length_fmap.
      repeat split; exact Hne. }
  intros stats. split; [apply (H 45) | apply (H 0)].
Qed.

End BatchAggregation.

(** ** Order independence of the fine reduction *)

Section OrderIndependence.

Local Open Scope Z_scope.

Import Utils.

Lemma sum_app (l1 l2 : list Q) : (F.sum (l1 ++ l2) == F.sum l1 + F.sum l2)%Q.
Proof.
  induction l1 as [| x l1 IH]; cbn.
  - now rewrite Qplus_0_l.
  - unfold F.sum in IH. rewrite IH. apply Qplus_assoc.
Qed.

Lemma sum_Permutation (l1 l2 : list Q) : l1 ≡ₚ l2 -> (F.sum l1 == F.sum l2)%Q.
Proof.
  induction 1 as [| x l1 l2 _ IH | x y l | l1 l2 l3 _ IH1 _ IH2]; cbn.
  - reflexivity.
  - unfold F.sum in IH. now rewrite IH.
  - rewrite !Qplus_assoc. now rewrite (Qplus_comm y x).
  - now rewrite IH1.
Qed.

Lemma foldl_add_value (a : Partial.acc) (vs : list Q) :
  ((foldl Partial.add_value a vs).1 == a.1 + F.sum vs)%Q
  /\ (foldl Partial.add_value a vs).2 = a.2 + Z.of_nat (length vs).
Proof.
  revert a. induction vs as [| v vs IH]; intros a; cbn [foldl].
  - cbn. split; [now rewrite Qplus_0_r | lia].
  - destruct (IH (Partial.add_value a v)) as [IH1 IH2]. split.
    + rewrite IH1. cbn. now rewrite Qplus_assoc.
    + rewrite IH2. cbn [Partial.add_value snd length]. lia.
Qed.

Lemma reduce_values (t : Partial.plan) :
  ((Partial.reduce t).1 == F.sum (Partial.values t))%Q
  /\ (Partial.reduce t).2 = Z.of_nat (length (Partial.values t)).
Proof.
  induction t as [vs | l [IHl1 IHl2] r [IHr1 IHr2]]; cbn [Partial.reduce Partial.values].
  - destruct (foldl_add_value Partial.zero vs) as [H1 H2]. split.
    + unfold Partial.of_values. rewrite H1. cbn. now rewrite Qplus_0_l.
    + unfold Partial.of_values. rewrite H2. cbn. lia.
  - split.
    + cbn. now rewrite IHl1, IHr1, sum_app.
    + cbn. rewrite IHl2, IHr2, length_app. lia.
Qed.

Lemma merge_comm (a b : Partial.acc) :
  ((Partial.merge a b).1 == (Partial.merge b a).1)%Q
  /\ (Partial.merge a b).2 = (Partial.merge b a).2.
Proof. cbn. split; [apply Qplus_comm | lia]. Qed.

Lemma merge_assoc (a b c : Partial.acc) :
  ((Partial.merge a (Partial.merge b c)).1 == (Partial.merge (Partial.merge a b) c).1)%Q
  /\ (Partial.merge a (Partial.merge b c)).2 = (Partial.merge (Partial.merge a b) c).2.
Proof. cbn. split; [apply Qplus_assoc | lia]. Qed.

Lemma finalize_plan (t : Partial.plan) (vs : list Q) (scale : nat) :
  Partial.values t ≡ₚ vs ->
  Partial.finalize (Partial.reduce t) scale = F.round (F.avg vs) scale.
Proof.
  intros Hp. destruct (reduce_values t) as [H1 H2].
  unfold Partial.finalize, F.avg. apply round_comp.
  rewrite H1, H2, (sum_Permutation _ _ Hp), (Permutation_length Hp). reflexivity.
Qed.

(** C8: the fine reduction does not depend on how the points of a group are
    partitioned or on the order in which the partial results are merged: for
    every way of splitting the points of a group into partitions, reducing
    each to a (sum, count) pair and merging the pairs in any order and
    bracketing, dividing and rounding at the end gives exactly the average
    velocity, average acceleration and count that [section_agg] gives for
    the whole group. *)
Theorem fine_reduction_order_independent
    (k : Z * option Z * Z) (pts : list Point) (tv ta : Partial.plan) :
  Partial.values tv ≡ₚ p_v_Vel <$> pts ->
  Partial.values ta ≡ₚ p_v_Acc <$> pts ->
  f_avg_v_Vel (section_row (k, pts)) = Partial.finalize (Partial.reduce tv) 1
  /\ f_avg_v_Acc (section_row (k, pts)) = Partial.finalize (Partial.reduce ta) 2
  /\ f_count (section_row (k, pts)) = (Partial.reduce tv).2.
Proof.
  intros Hv Ha. destruct k as [[t s] l]. cbn [section_row f_avg_v_Vel f_avg_v_Acc f_count].
  rewrite (finalize_plan tv _ 1 Hv), (finalize_plan ta _ 2 Ha).
  repeat split.
  destruct (reduce_values tv) as [_ ->].
  unfold F.count. now rewrite (Permutation_length Hv), length_fmap.
Qed.

Lemma fine_reduction_order_independent_witness :
  let pts := [mkPoint 0 6 250 50 1; mkPoint 0 6 260 55 0; mkPoint 0 6 270 60 (-1)] in
  let tv := Partial.Merge (Partial.Part [55%Q; 60%Q]) (Partial.Part [50%Q]) in
  let ta := Partial.Merge (Partial.Merge (Partial.Part [0%Q]) (Partial.Part [])) (Partial.Part [1%Q; (-1)%Q]) in
  f_avg_v_Vel (section_row ((0, Some 2, 6), pts)) = Partial.finalize (Partial.reduce tv) 1
  /\ f_avg_v_Acc (section_row ((0, Some 2, 6), pts)) = Partial.finalize (Partial.reduce ta) 2
  /\ f_count (section_row ((0, Some 2, 6), pts)) = (Partial.reduce tv).2.
Proof.
  intros pts tv ta.
  apply (fine_reduction_order_independent (0, Some 2, 6) pts tv ta); cbn.
  - exact (Permutation_app_comm [55%Q; 60%Q] [50%Q]).
  - exact (perm_swap 1%Q 0%Q [(-1)%Q]).
Defined.

End OrderIndependence.

(** ** The matrix renderers *)

Section Rendering.

Local Open Scope Z_scope.

Import Utils.

Lemma index_lt (len : nat) (i : Z) (n : nat) : Py.index len i = Ok n -> (n < len)%nat.
Proof.
  unfold Py.index. intros H.
  destruct ((0 <=? i) && (i <? Z.of_nat len)) eqn:E1.
  - injection H as <-. apply andb_true_iff in E1 as [?%Z.leb_le ?%Z.ltb_lt]. lia.
  - destruct ((- Z.of_nat len <=? i) && (i <? 0)) eqn:E2; [| discriminate].
    injection H as <-. apply andb_true_iff in E2 as [?%Z.leb_le ?%Z.ltb_lt]. lia.
Qed.

Lemma index_in_range (len : nat) (i : Z) :
  0 <= i < Z.of_nat len -> Py.index len i = Ok (Z.to_nat i).
Proof.
  intros H. unfold Py.index.
  destruct (Z.leb_spec 0 i), (Z.ltb_spec i (Z.of_nat len)); cbn; first [reflexivity | lia].
Qed.

Lemma index_out_of_range (len : nat) (i : Z) :
  i < - Z.of_nat len \/ Z.of_nat len <= i -> Py.index len i = Raise IndexError.
Proof.
  intros H. unfold Py.index.
  destruct (Z.leb_spec 0 i), (Z.ltb_spec i (Z.of_nat len)),
    (Z.leb_spec (- Z.of_nat len) i), (Z.ltb_spec i 0); cbn; first [reflexivity | lia].
Qed.

Lemma full_shape {A : Type} (rows cols : Z) (v : A) (m : list (list A)) :
  Np.full rows cols v = Ok m ->
  0 <= rows /\ 0 <= cols
  /\ Np.shape (Z.to_nat rows) (Z.to_nat cols) m
  /\ forall i j, (i < Z.to_nat rows)%nat -> (j < Z.to_nat cols)%nat ->
       Np.get m i j = Some v.
Proof.
  unfold Np.full. destruct (Z.ltb_spec rows 0), (Z.ltb_spec cols 0); cbn; try discriminate.
  intros [= <-]. repeat split; try lia.
  - apply length_replicate.
  - apply Forall_replicate, length_replicate.
  - intros i j Hi Hj. unfold Np.get.
    rewrite lookup_replicate_2 by exact Hi. cbn. now apply lookup_replicate_2.
Qed.


Lemma setitem_spec {A : Type} (nr nc : nat) (m m' : list (list A)) (i j : Z) (v : A) :
  Np.shape nr nc m ->
  Np.setitem m i j v = Ok m' ->
  exists i' j',
    Py.index nr i = Ok i' /\ Py.index nc j = Ok j'
    /\ Np.shape nr nc m'
    /\ Np.get m' i' j' = Some v
    /\ forall a b, (a, b) <> (i', j') -> Np.get m' a b = Np.get m a b.
Proof.
  intros [Hlen Hrows] H. unfold Np.setitem in H. rewrite Hlen in H.
  destruct (Py.index nr i) as [i' |] eqn:Hi; [cbn in H | discriminate].
  pose proof (index_lt _ _ _ Hi) as Hi'.
  destruct (m !! i') as [row |] eqn:Hrow; [| discriminate].
  assert (length row = nc) as Hrl.
  { eapply Forall_lookup_1 in Hrows; [exact Hrows | exact Hrow]. }
  rewrite Hrl in H.
  destruct (Py.index nc j) as [j' |] eqn:Hj; [cbn in H | discriminate].
  pose proof (index_lt _ _ _ Hj) as Hj'.
  injection H as <-. exists i', j'. repeat split.
  - now rewrite length_insert.
  - apply Forall_insert; [exact Hrows | now rewrite length_insert].
  - unfold Np.get. rewrite list_lookup_insert_eq by lia. cbn.
    apply list_lookup_insert_eq. lia.
  - intros a b Hab. unfold Np.get.
    destruct (decide (a = i')) as [-> | Ha].
    + rewrite list_lookup_insert_eq by lia. rewrite Hrow. cbn.
      apply list_lookup_insert_ne. congruence.
    + now rewrite list_lookup_insert_ne by congruence.
Qed.

Lemma setitem_total {A : Type} (nr nc : nat) (m : list (list A)) (i j : Z) (v : A)
    (i' j' : nat) :
  Np.shape nr nc m ->
  Py.index nr i = Ok i' -> Py.index nc j = Ok j' ->
  exists m', Np.setitem m i j v = Ok m'.
Proof.
  intros [Hlen Hrows] Hi Hj. unfold Np.setitem. rewrite Hlen, Hi. cbn.
  pose proof (index_lt _ _ _ Hi) as Hi'.
  destruct (lookup_lt_is_Some_2 m i' ltac:(lia)) as [row Hrow]. rewrite Hrow.
  assert (length row = nc) as ->.
  { eapply Forall_lookup_1 in Hrows; [exact Hrows | exact Hrow]. }
  rewrite Hj. cbn. eauto.
Qed.

Lemma setitem_index_error {A : Type} (nr nc : nat) (m : list (list A)) (i j : Z) (v : A) :
  Np.shape nr nc m ->
  Py.index nr i = Raise IndexError \/ Py.index nc j = Raise IndexError ->
  Np.setitem m i j v = Raise IndexError.
Proof.
  intros [Hlen Hrows] H. unfold Np.setitem. rewrite Hlen.
  destruct (Py.index nr i) as [i' |] eqn:Hi; cbn.
  - destruct H as [H | H]; [discriminate |].
    destruct (m !! i') as [row |] eqn:Hrow; [| reflexivity].
    assert (length row = nc) as ->.
    { eapply Forall_lookup_1 in Hrows; [exact Hrows | exact Hrow]. }
    now rewrite H.
  - destruct H as [H | H]; [congruence |].
    unfold Py.index in Hi.
    destruct ((0 <=? i) && (i <? Z.of_nat nr)); [discriminate |].
    destruct ((- Z.of_nat nr <=? i) && (i <? 0)); [discriminate | congruence].
Qed.

Lemma init_matrices_spec (num_lanes num_sections : Z) (m : Matrices) :
  init_matrices num_lanes num_sections = Ok m ->
  0 <= num_lanes /\ 0 <= num_sections
  /\ shaped (Z.to_nat num_lanes) (Z.to_nat num_sections) m
  /\ forall i j, (i < Z.to_nat num_lanes)%nat -> (j < Z.to_nat num_sections)%nat ->
       cells m i j = (Some 60, Some 0%Q, Some 0%Q).
Proof.
  unfold init_matrices, min_max_scaler. intros H.
  destruct (Np.full num_lanes num_sections 60) as [v |] eqn:Hv; [cbn in H | discriminate].
  destruct (Np.full num_lanes num_sections 0%Q) as [d |] eqn:Hd; [cbn in H | discriminate].
  injection H as <-.
  apply full_shape in Hv as (Hl & Hs & Hvs & Hvd).
  apply full_shape in Hd as (_ & _ & Hds & Hdd).
  split; [exact Hl |]. split; [exact Hs |].
  split; [unfold shaped; cbn; tauto |].
  intros i j Hi Hj. unfold cells. cbn. now rewrite Hvd, Hdd.
Qed.

Lemma init_matrices_total (num_lanes num_sections : Z) :
  0 <= num_lanes -> 0 <= num_sections ->
  exists m, init_matrices num_lanes num_sections = Ok m.
Proof.
  intros Hl Hs. unfold init_matrices, Np.full.
  destruct (Z.ltb_spec num_lanes 0), (Z.ltb_spec num_sections 0); try lia.
  cbn. eauto.
Qed.

Lemma fill_row_skipped (ns : Z) (wr : bool) (m : Matrices) (row : StatRow) :
  skipped wr row = true -> fill_row ns wr m row = Ok m.
Proof. intros H. unfold fill_row. now rewrite H. Qed.

Lemma fill_row_written (nl ns : Z) (wr : bool) (m m' : Matrices) (row : StatRow) :
  shaped (Z.to_nat nl) (Z.to_nat ns) m ->
  skipped wr row = false ->
  fill_row ns wr m row = Ok m' ->
  exists i j,
    cell nl ns row = Ok (i, j)
    /\ shaped (Z.to_nat nl) (Z.to_nat ns) m'
    /\ cells m' i j = written row
    /\ forall a b, (a, b) <> (i, j) -> cells m' a b = cells m a b.
Proof.
  intros (Sv & Sd & Sa) Hskip H. unfold fill_row in H. rewrite Hskip in H.
  unfold min_max_scaler in H.
  destruct (Np.setitem (vel_matrix m) _ _ _) as [v |] eqn:Hv; [cbn in H | discriminate].
  destruct (Np.setitem (dens_matrix m) _ _ _) as [d |] eqn:Hd; [cbn in H | discriminate].
  destruct (Np.setitem (acc_matrix m) _ _ _) as [a |] eqn:Ha; [cbn in H | discriminate].
  injection H as <-.
  destruct (setitem_spec _ _ _ _ _ _ _ Sv Hv) as (i & j & Hi & Hj & Sv' & Gv & Ov).
  destruct (setitem_spec _ _ _ _ _ _ _ Sd Hd) as (i2 & j2 & Hi2 & Hj2 & Sd' & Gd & Od).
  destruct (setitem_spec _ _ _ _ _ _ _ Sa Ha) as (i3 & j3 & Hi3 & Hj3 & Sa' & Ga & Oa).
  assert (i2 = i) as -> by congruence. assert (j2 = j) as -> by congruence.
  assert (i3 = i) as -> by congruence. assert (j3 = j) as -> by congruence.
  exists i, j. unfold cell. rewrite Hi, Hj. cbn.
  split; [reflexivity |]. split; [unfold shaped; cbn; tauto |]. split.
  - unfold cells, written. cbn. now rewrite Gv, Gd, Ga.
  - intros x y Hxy. unfold cells. cbn. now rewrite Ov, Od, Oa.
Qed.

Lemma fill_row_total (nl ns : Z) (wr : bool) (m : Matrices) (row : StatRow) (i j : nat) :
  shaped (Z.to_nat nl) (Z.to_nat ns) m ->
  cell nl ns row = Ok (i, j) ->
  exists m', fill_row ns wr m row = Ok m'.
Proof.
  intros (Sv & Sd & Sa) Hc. unfold fill_row.
  destruct (skipped wr row); [eauto |].
  unfold cell in Hc.
  destruct (Py.index (Z.to_nat nl) _) as [i' |] eqn:Hi; [cbn in Hc | discriminate].
  destruct (Py.index (Z.to_nat ns) _) as [j' |] eqn:Hj; [cbn in Hc | discriminate].
  destruct (setitem_total _ _ _ _ _ (Np.int64_of_float (min_max_scaler (r_avg_v_Vel row)))
              _ _ Sv Hi Hj) as [v ->].
  destruct (setitem_total _ _ _ _ _ (inject_Z (min_max_scaler (r_count row)))
              _ _ Sd Hi Hj) as [d ->].
  destruct (setitem_total _ _ _ _ _ (min_max_scaler (r_avg_v_Acc row))
              _ _ Sa Hi Hj) as [a ->].
  cbn. eauto.
Qed.

Lemma for_each_app {S T : Type} (body : S -> T -> result S) (s : S) (l1 l2 : list T) :
  Py.for_each body s (l1 ++ l2)
  = Py.bind (Py.for_each body s l1) (fun s' => Py.for_each body s' l2).
Proof.
  revert s. induction l1 as [| x l1 IH]; intros s; cbn; [reflexivity |].
  destruct (body s x); cbn; [apply IH | reflexivity].
Qed.

Lemma for_each_shaped (nl ns : Z) (wr : bool) (rows : list StatRow) (m m' : Matrices) :
  shaped (Z.to_nat nl) (Z.to_nat ns) m ->
  Py.for_each (fill_row ns wr) m rows = Ok m' ->
  shaped (Z.to_nat nl) (Z.to_nat ns) m'.
Proof.
  revert m. induction rows as [| r rows IH]; intros m Hs H; cbn in H.
  - now injection H as <-.
  - destruct (fill_row ns wr m r) as [m1 |] eqn:Hf; [cbn in H | discriminate].
    apply (IH m1); [| exact H].
    destruct (skipped wr r) eqn:Hk.
    + rewrite fill_row_skipped in Hf by exact Hk. now injection Hf as <-.
    + destruct (fill_row_written nl ns wr m m1 r Hs Hk Hf) as (? & ? & _ & ? & _).
      assumption.
Qed.

Lemma for_each_keeps (nl ns : Z) (wr : bool) (i j : nat) (rows : list StatRow)
    (m m' : Matrices) :
  shaped (Z.to_nat nl) (Z.to_nat ns) m ->
  Py.for_each (fill_row ns wr) m rows = Ok m' ->
  (forall r, r ∈ rows -> skipped wr r = false -> cell nl ns r <> Ok (i, j)) ->
  cells m' i j = cells m i j.
Proof.
  revert m. induction rows as [| r rows IH]; intros m Hs H Hother; cbn in H.
  - now injection H as <-.
  - destruct (fill_row ns wr m r) as [m1 |] eqn:Hf; [cbn in H | discriminate].
    destruct (skipped wr r) eqn:Hk.
    + rewrite fill_row_skipped in Hf by exact Hk. injection Hf as <-.
      apply IH; [exact Hs | exact H |].
      intros r' Hr'. apply Hother. now right.
    + destruct (fill_row_written nl ns wr m m1 r Hs Hk Hf) as (a & b & Hc & Hs1 & _ & Ho).
      rewrite (IH m1 Hs1 H).
      * apply Ho. intros [= <- <-]. apply (Hother r); [left | exact Hk | exact Hc].
      * intros r' Hr'. apply Hother. now right.
Qed.

Lemma create_np_matrices_total (rows : list StatRow) (nl ns : Z) (wr : bool) :
  0 <= nl -> 0 <= ns ->
  (forall r, r ∈ rows -> exists i j, cell nl ns r = Ok (i, j)) ->
  exists m, create_np_matrices rows nl ns wr = Ok m.
Proof.
  intros Hl Hs Hrows. unfold create_np_matrices.
  destruct (init_matrices_total nl ns Hl Hs) as [m0 H0]. rewrite H0. cbn.
  apply init_matrices_spec in H0 as (_ & _ & Hsh & _).
  revert m0 Hsh. induction rows as [| r rows IH]; intros m0 Hsh; cbn; [eauto |].
  destruct (Hrows r ltac:(left)) as (i & j & Hc).
  destruct (fill_row_total nl ns wr m0 r i j Hsh Hc) as [m1 H1]. rewrite H1. cbn.
  apply IH.
  - intros r' Hr'. apply Hrows. now right.
  - eapply (for_each_shaped nl ns wr [r] m0 m1 Hsh). cbn. now rewrite H1.
Qed.

Lemma cell_in_range (nl ns : Z) (r : StatRow) :
  1 <= r_Lane_ID r <= nl ->
  0 <= clamp_section ns (r_Section_ID r) < ns ->
  cell nl ns r
  = Ok (Z.to_nat (r_Lane_ID r - 1), Z.to_nat (clamp_section ns (r_Section_ID r))).
Proof.
  intros Hl Hs. unfold cell.
  rewrite (index_in_range (Z.to_nat nl)) by lia. cbn.
  rewrite (index_in_range (Z.to_nat ns)) by lia. reflexivity.
Qed.

Lemma untouched_cell_default (rows : list StatRow) (nl ns : Z) (wr : bool)
    (m : Matrices) (i j : nat) :
  create_np_matrices rows nl ns wr = Ok m ->
  (i < Z.to_nat nl)%nat -> (j < Z.to_nat ns)%nat ->
  (forall r, r ∈ rows -> skipped wr r = false -> cell nl ns r <> Ok (i, j)) ->
  cells m i j = (Some 60, Some 0%Q, Some 0%Q).
Proof.
  unfold create_np_matrices. intros H Hi Hj Hother.
  destruct (init_matrices nl ns) as [m0 |] eqn:H0; [cbn in H | discriminate].
  apply init_matrices_spec in H0 as (_ & _ & Hsh & Hdef).
  rewrite (for_each_keeps nl ns wr i j rows m0 m Hsh H Hother). now apply Hdef.
Qed.

Lemma last_writer (pre post : list StatRow) (r : StatRow) (nl ns : Z) (wr : bool)
    (m : Matrices) (i j : nat) :
  create_np_matrices (pre ++ r :: post) nl ns wr = Ok m ->
  skipped wr r = false ->
  cell nl ns r = Ok (i, j) ->
  (forall r', r' ∈ post -> skipped wr r' = false -> cell nl ns r' <> Ok (i, j)) ->
  cells m i j = written r.
Proof.
  unfold create_np_matrices. intros H Hk Hc Hother.
  destruct (init_matrices nl ns) as [m0 |] eqn:H0; [cbn in H | discriminate].
  apply init_matrices_spec in H0 as (_ & _ & Hsh0 & _).
  rewrite for_each_app in H.
  destruct (Py.for_each _ m0 pre) as [m1 |] eqn:H1; [cbn in H | discriminate].
  pose proof (for_each_shaped nl ns wr pre m0 m1 Hsh0 H1) as Hsh1.
  destruct (fill_row ns wr m1 r) as [m2 |] eqn:H2; [cbn in H | discriminate].
  destruct (fill_row_written nl ns wr m1 m2 r Hsh1 Hk H2) as (a & b & Hc' & Hsh2 & Hw & _).
  assert (a = i /\ b = j) as [-> ->] by (split; congruence).
  now rewrite (for_each_keeps nl ns wr i j post m2 m Hsh2 H Hother).
Qed.

Lemma rdd_to_np_matrices_create (key : Z) (iter : list StatRow) (nl ns : Z) (wr : bool) :
  rdd_to_np_matrices key iter nl ns wr
  = (m <~ create_np_matrices iter nl ns wr ;; Ok (key, stack m)).
Proof.
  unfold rdd_to_np_matrices, create_np_matrices.
  destruct (init_matrices nl ns); reflexivity.
Qed.

(** C10: a cell of the rendered matrices holds what the loop stored for the
    last record, in iteration order, that is written to it, whatever the
    records written there before; nothing is accumulated.  In particular a
    record with [sectionId = numSections] and one with
    [sectionId = numSections - 1] in the same lane are written to the same
    cell, and the one that comes later determines all three matrices.
    [rdd_to_np_matrices] stacks the arrays filled by the same loop. *)
Theorem last_record_wins (nl ns : Z) (wr : bool) :
  (forall pre r post m i j,
     create_np_matrices (pre ++ r :: post) nl ns wr = Ok m ->
     skipped wr r = false ->
     cell nl ns r = Ok (i, j) ->
     (forall r', r' ∈ post -> skipped wr r' = false -> cell nl ns r' <> Ok (i, j)) ->
     cells m i j = written r)
  /\ (forall r1 r2,
        r_Section_ID r1 = ns -> r_Section_ID r2 = ns - 1 ->
        r_Lane_ID r1 = r_Lane_ID r2 ->
        1 <= r_Lane_ID r1 <= nl -> 1 <= ns -> skipped wr r1 = false ->
        let i := Z.to_nat (r_Lane_ID r1 - 1) in
        let j := Z.to_nat (ns - 1) in
        cell nl ns r1 = Ok (i, j) /\ cell nl ns r2 = Ok (i, j)
        /\ (exists m, create_np_matrices [r1; r2] nl ns wr = Ok m
                      /\ cells m i j = written r2)
        /\ (exists m, create_np_matrices [r2; r1] nl ns wr = Ok m
                      /\ cells m i j = written r1))
  /\ (forall key iter,
        rdd_to_np_matrices key iter nl ns wr
        = (m <~ create_np_matrices iter nl ns wr ;; Ok (key, stack m))).
Proof.
  split; [| split].
  - intros pre r post m i j. apply last_writer.
  - intros r1 r2 H1 H2 Hlane Hl Hs Hk i j.
    assert (clamp_section ns (r_Section_ID r1) = ns - 1) as Hc1.
    { unfold clamp_section. rewrite H1, Z.eqb_refl. reflexivity. }
    assert (clamp_section ns (r_Section_ID r2) = ns - 1) as Hc2.
    { unfold clamp_section. rewrite H2.
      destruct (Z.eqb_spec (ns - 1) ns); [lia | reflexivity]. }
    assert (cell nl ns r1 = Ok (i, j)) as C1.
    { rewrite cell_in_range by lia. subst i j. now rewrite Hc1. }
    assert (cell nl ns r2 = Ok (i, j)) as C2.
    { rewrite cell_in_range by lia. subst i j. now rewrite Hc2, Hlane. }
    assert (skipped wr r2 = false) as Hk2.
    { unfold skipped in *. now rewrite <- Hlane. }
    split; [exact C1 |]. split; [exact C2 |]. split.
    + destruct (create_np_matrices_total [r1; r2] nl ns wr) as [m Hm]; [lia | lia | |].
      { intros r [-> | [-> | []%elem_of_nil]%elem_of_cons]%elem_of_cons; eauto. }
      exists m. split; [exact Hm |].
      apply (last_writer [r1] [] r2 nl ns wr m i j Hm Hk2 C2).
      intros r' []%elem_of_nil.
    + destruct (create_np_matrices_total [r2; r1] nl ns wr) as [m Hm]; [lia | lia | |].
      { intros r [-> | [-> | []%elem_of_nil]%elem_of_cons]%elem_of_cons; eauto. }
      exists m. split; [exact Hm |].
      apply (last_writer [r2] [] r1 nl ns wr m i j Hm Hk C1).
      intros r' []%elem_of_nil.
  - intros key iter. apply rdd_to_np_matrices_create.
Qed.

Lemma last_record_wins_witness :
  exists m,
    create_np_matrices [mkStatRow 2 10 (557 # 10) 3 (25 # 100);
                        mkStatRow 2 9 (402 # 10) 7 (-5 # 100)] 6 10 true = Ok m
    /\ cells m 1 9 = written (mkStatRow 2 9 (402 # 10) 7 (-5 # 100)).
Proof.
  destruct (last_record_wins 6 10 true) as (_ & H & _).
  destruct (H (mkStatRow 2 10 (557 # 10) 3 (25 # 100))
              (mkStatRow 2 9 (402 # 10) 7 (-5 # 100))
              eq_refl eq_refl eq_refl ltac:(cbn; lia) ltac:(lia) eq_refl)
    as (_ & _ & Hm & _).
  exact Hm.
Defined.

(** C6: where the renderer departs from the claim.  Cells that no record
    is written to keep 60, 0 and 0 (so a lane-6 record leaves its cell alone
    when [with_ramp] is false), but the velocity array is an int64 array:
    for a record of lane 1, section 0 with average velocity 55.7 both
    renderers store 55, where the older [create_np_matrices] of
    datapreprocessing.py, with a float array, stores 55.7. *)
Theorem velocity_cell_loses_fraction :
  (forall rows nl ns wr m i j,
     create_np_matrices rows nl ns wr = Ok m ->
     (i < Z.to_nat nl)%nat -> (j < Z.to_nat ns)%nat ->
     (forall r, r ∈ rows -> skipped wr r = false -> cell nl ns r <> Ok (i, j)) ->
     cells m i j = (Some 60, Some 0%Q, Some 0%Q))
  /\ (exists m,
        create_np_matrices [mkStatRow 6 2 (402 # 10) 5 (25 # 100)] 6 10 false = Ok m
        /\ cells m 5 2 = (Some 60, Some 0%Q, Some 0%Q))
  /\ (exists m,
        create_np_matrices [mkStatRow 1 0 (557 # 10) 3 (25 # 100)] 6 10 true = Ok m
        /\ cells m 0 0 = (Some 55, Some 3%Q, Some (25 # 100)))
  /\ (exists x,
        rdd_to_np_matrices 0 [mkStatRow 1 0 (557 # 10) 3 (25 # 100)] 6 10 true = Ok (0, x)
        /\ Np.get x 0 0 = Some (55%Q, 3%Q, 25 # 100))
  /\ (exists v d a,
        Legacy.create_np_matrices [mkStatRow 1 0 (557 # 10) 3 (25 # 100)] 10 = Ok (v, d, a)
        /\ Np.get v 0 0 = Some (557 # 10))
  /\ ~ (inject_Z 55 == 557 # 10)%Q.
Proof.
  split; [| split; [| split; [| split; [| split]]]].
  - intros rows nl ns wr m i j. apply untouched_cell_default.
  - eexists. split; [vm_compute; reflexivity | reflexivity].
  - eexists. split; [vm_compute; reflexivity | reflexivity].
  - eexists. split; [vm_compute; reflexivity | reflexivity].
  - eexists _, _, _. split; [vm_compute; reflexivity | reflexivity].
  - discriminate.
Qed.

Lemma cell_index_error (nl ns : Z) (r : StatRow) (e : exn) :
  cell nl ns r = Raise e ->
  e = IndexError
  /\ (Py.index (Z.to_nat nl) (r_Lane_ID r - 1) = Raise IndexError
      \/ Py.index (Z.to_nat ns) (clamp_section ns (r_Section_ID r)) = Raise IndexError).
Proof.
  assert (forall len i e', Py.index len i = Raise e' -> e' = IndexError) as Hidx.
  { intros len i e'. unfold Py.index.
    destruct ((0 <=? i) && (i <? Z.of_nat len)); [discriminate |].
    destruct ((- Z.of_nat len <=? i) && (i <? 0)); [discriminate | congruence]. }
  unfold cell. intros H.
  destruct (Py.index (Z.to_nat nl) _) as [i |] eqn:Hi; cbn in H.
  - destruct (Py.index (Z.to_nat ns) _) as [j |] eqn:Hj; cbn in H; [discriminate |].
    injection H as <-. pose proof (Hidx _ _ _ Hj) as ->. auto.
  - injection H as <-. pose proof (Hidx _ _ _ Hi) as ->. auto.
Qed.

Lemma fill_row_index_error (nl ns : Z) (wr : bool) (m : Matrices) (r : StatRow) (e : exn) :
  shaped (Z.to_nat nl) (Z.to_nat ns) m ->
  skipped wr r = false ->
  cell nl ns r = Raise e ->
  fill_row ns wr m r = Raise IndexError.
Proof.
  intros (Sv & _ & _) Hk Hc. apply cell_index_error in Hc as [_ Hc].
  unfold fill_row. rewrite Hk.
  now rewrite (setitem_index_error _ _ _ _ _ _ Sv Hc).
Qed.



End Rendering.

(** ** The streaming query *)

Section Streaming.

Local Open Scope Z_scope.

Import Realtime.

Variable self : Predictor.
Variable tz : Z -> Z.

Lemma map_each_keys {A B : Type} (f : A -> result B) (ks : list A) (out : list (A * B)) :
  Py.map_each (fun k => v <~ f k ;; Ok (k, v)) ks = Ok out -> out.*1 = ks.
Proof.
  revert out. induction ks as [| k ks IH]; intros out H; cbn in H.
  - now injection H as <-.
  - destruct (f k) as [v |]; [cbn in H | discriminate].
    destruct (Py.map_each _ ks) as [rest |]; [cbn in H | discriminate].
    injection H as <-. cbn. f_equal. now apply IH.
Qed.

Lemma open_at_mono (wm wm' start : Z) :
  wm' <= wm -> open_at self wm start -> open_at self wm' start.
Proof. unfold open_at. lia. Qed.

(** The windows written by one micro-batch are those of the on-time rows
    of [timewindow_agg]. *)
Lemma timewindow_agg_open (late_wm wm : Z) (state state' : gmap (Z * option Z * Z) avg_buffer)
    (df out : list ((Z * option Z * Z) * Q)) :
  timewindow_agg self tz late_wm wm state df = Ok (state', out) ->
  forall r, r ∈ out -> open_at self late_wm r.1.1.1.
Proof.
  unfold timewindow_agg. destruct (timewindow self <=? 0); [discriminate |].
  intros [= _ <-] r Hr.
  apply list_elem_of_fmap in Hr as ([k v] & -> & Hkv).
  unfold avg_output in Hkv. apply list_elem_of_fmap in Hkv as (k' & [= -> _] & Hk).
  unfold updated in Hk. rewrite elem_of_remove_dups in Hk.
  apply list_elem_of_fmap in Hk as (r' & -> & Hr').
  apply list_elem_of_filter in Hr' as [Hopen _]. exact Hopen.
Qed.

Lemma rows_to_np_df_keys (wm : Z) (state state' : gmap Z (list (Z * option Z * Q)))
    (df : list ((Z * option Z * Z) * Q)) (out : list (Z * list (list (list Z)))) :
  rows_to_np_df self wm state df = Ok (state', out) ->
  NoDup out.*1 /\ forall w, w ∈ out.*1 -> exists r, r ∈ df /\ r.1.1.1 = w.
Proof.
  unfold rows_to_np_df. intros H.
  destruct (Py.map_each _ _) as [o |] eqn:Ho; [cbn in H | discriminate].
  injection H as _ <-. apply map_each_keys in Ho. rewrite Ho. split.
  - apply NoDup_remove_dups.
  - intros w Hw. unfold updated in Hw. rewrite elem_of_remove_dups in Hw.
    apply list_elem_of_fmap in Hw as (wx & -> & Hx).
    apply list_elem_of_fmap in Hx as ([[[w0 s0] l0] v0] & -> & Hr).
    exists (w0, s0, l0, v0). split; [exact Hr | reflexivity].
Qed.

Lemma trigger_spec (st st' : State) (batch : list Point)
    (out : list (Z * list (list (list Z)))) :
  trigger self tz st batch = Ok (st', out) ->
  NoDup out.*1
  /\ (forall w, w ∈ out.*1 -> open_at self (late_watermark st) w)
  /\ late_watermark st' = watermark st
  /\ watermark st <= watermark st'.
Proof.
  unfold trigger. intros H.
  destruct (section_agg self _ batch) as [[s1 df1] |]; [cbn in H | discriminate].
  destruct (timewindow_agg self tz _ _ _ df1) as [[s2 df2] |] eqn:H2;
    [cbn in H | discriminate].
  destruct (rows_to_np_df self _ _ df2) as [[s3 df3] |] eqn:H3;
    [cbn in H | discriminate].
  injection H as <- <-. cbn.
  destruct (rows_to_np_df_keys _ _ _ _ _ H3) as [Hnd Hkeys].
  split; [exact Hnd |]. split; [| split; [reflexivity |]].
  - intros w Hw. destruct (Hkeys w Hw) as (r & Hr & <-).
    exact (timewindow_agg_open _ _ _ _ _ _ H2 r Hr).
  - destruct (max_event_time tz df1); lia.
Qed.

Lemma run_spec (batches : list (list Point)) (st st' : State)
    (outs : list (list (Z * list (list (list Z))))) :
  run self tz st batches = Ok (st', outs) ->
  late_watermark st <= watermark st ->
  late_watermark st' <= watermark st'
  /\ late_watermark st <= late_watermark st'
  /\ forall out, out ∈ outs ->
       NoDup out.*1 /\ forall w, w ∈ out.*1 -> open_at self (late_watermark st) w.
Proof.
  revert st st' outs. induction batches as [| batch rest IH]; intros st st' outs H Hinv;
    cbn in H.
  - injection H as <- <-. repeat split; try lia; now apply elem_of_nil in H.
  - destruct (trigger self tz st batch) as [[st1 out1] |] eqn:H1; [cbn in H | discriminate].
    destruct (run self tz st1 rest) as [[st2 outs2] |] eqn:H2; [cbn in H | discriminate].
    injection H as <- <-.
    destruct (trigger_spec _ _ _ _ H1) as (Hnd & Hopen & Hlate & Hwm).
    destruct (IH _ _ _ H2 ltac:(lia)) as (Hinv2 & Hmono & Houts).
    split; [exact Hinv2 |]. split; [lia |].
    intros out' [-> | Hout]%elem_of_cons; [now split |].
    destruct (Houts out' Hout) as [Hnd' Hopen']. split; [exact Hnd' |].
    intros w Hw. eapply open_at_mono; [| exact (Hopen' w Hw)]. lia.
Qed.

Lemma avg_output_keys {K : Type} `{Countable K} (state : gmap K avg_buffer) (keys : list K) :
  (avg_output state keys).*1 = keys.
Proof.
  unfold avg_output. rewrite <- list_fmap_compose.
  erewrite list_fmap_ext; [apply list_fmap_id |]. reflexivity.
Qed.

Lemma elem_of_key_column {K V : Type} (f : K -> Z) (l : list (K * V)) (t : Z) :
  t ∈ (fun r : K * V => f r.1) <$> l <-> t ∈ f <$> l.*1.
Proof. now rewrite <- list_fmap_compose. Qed.

Lemma fst_fmap_preserved {K V W : Type} (g : K * V -> K * W) (l : list (K * V)) :
  (forall x, (g x).1 = x.1) -> (g <$> l).*1 = l.*1.
Proof.
  intros Hg. induction l as [| x l IH]; [reflexivity |]. cbn. now rewrite Hg, <- IH.
Qed.

Lemma section_agg_out_keys (state state' : gmap (Z * option Z * Z) avg_buffer)
    (df : list Point) (out : list ((Z * option Z * Z) * Q)) :
  section_agg self state df = Ok (state', out) ->
  forall t, t ∈ (fun r : (Z * option Z * Z) * Q => r.1.1.1) <$> out
            <-> exists p, p ∈ df /\ t = Global_Time p.
Proof.
  unfold section_agg. intros H.
  destruct (Py.floordiv _ _) as [w |]; [cbn in H | discriminate].
  injection H as _ <-. intros t.
  etransitivity; [apply (elem_of_key_column (fun k : Z * option Z * Z => k.1.1)) |].
  rewrite avg_output_keys. unfold updated. rewrite list_elem_of_fmap. split.
  - intros (k & -> & Hk). rewrite elem_of_remove_dups in Hk.
    apply list_elem_of_fmap in Hk as (r & -> & Hr).
    apply list_elem_of_fmap in Hr as (p & -> & Hp). eauto.
  - intros (p & Hp & ->).
    eexists. split; [| rewrite elem_of_remove_dups; apply list_elem_of_fmap_2,
                         list_elem_of_fmap_2, Hp].
    reflexivity.
Qed.

Lemma timewindow_agg_out_windows (late_wm wm : Z)
    (state state' : gmap (Z * option Z * Z) avg_buffer)
    (df out : list ((Z * option Z * Z) * Q)) :
  timewindow_agg self tz late_wm wm state df = Ok (state', out) ->
  forall w, w ∈ (fun r : (Z * option Z * Z) * Q => r.1.1.1) <$> out
            <-> exists r, r ∈ df
                          /\ w = window_start self (convert_timestamp tz r.1.1.1)
                          /\ open_at self late_wm w.
Proof.
  unfold timewindow_agg. destruct (timewindow self <=? 0); [discriminate |].
  intros [= _ <-] w.
  etransitivity; [apply (elem_of_key_column (fun k : Z * option Z * Z => k.1.1)) |].
  rewrite fst_fmap_preserved by now intros [k v].
  rewrite avg_output_keys. unfold updated.
  rewrite list_elem_of_fmap. split.
  - intros (k & -> & Hk). rewrite elem_of_remove_dups in Hk.
    apply list_elem_of_fmap in Hk as (r & -> & Hr).
    apply list_elem_of_filter in Hr as [Hopen Hr].
    apply list_elem_of_fmap in Hr as ([[[t s] l] v] & -> & Hr).
    exists (t, s, l, v). split; [exact Hr |]. split; [reflexivity | exact Hopen].
  - intros ([[[t s] l] v] & Hr & -> & Hopen).
    exists (window_start self (convert_timestamp tz t), s, l). split; [reflexivity |].
    rewrite elem_of_remove_dups.
    apply (list_elem_of_fmap_2' fst _ (window_start self (convert_timestamp tz t), s, l, v));
      [| reflexivity].
    apply list_elem_of_filter. split; [exact Hopen |].
    apply (list_elem_of_fmap_2' _ _ (t, s, l, v)); [exact Hr | reflexivity].
Qed.

Lemma rows_to_np_df_windows (wm : Z) (state state' : gmap Z (list (Z * option Z * Q)))
    (df : list ((Z * option Z * Z) * Q)) (out : list (Z * list (list (list Z)))) :
  rows_to_np_df self wm state df = Ok (state', out) ->
  out.*1 = remove_dups ((fun r : (Z * option Z * Z) * Q => r.1.1.1) <$> df).
Proof.
  unfold rows_to_np_df. intros H.
  destruct (Py.map_each _ _) as [o |] eqn:Ho; [cbn in H | discriminate].
  injection H as _ <-. apply map_each_keys in Ho. rewrite Ho. unfold updated.
  f_equal. rewrite <- list_fmap_compose. apply list_fmap_ext.
  intros i [[[w s] l] v] _. reflexivity.
Qed.

Lemma trigger_out_windows (st st' : State) (batch : list Point)
    (out : list (Z * list (list (list Z)))) :
  trigger self tz st batch = Ok (st', out) ->
  forall w, w ∈ out.*1
            <-> exists p, p ∈ batch /\ w = window_start self (convert_timestamp tz (Global_Time p))
                          /\ open_at self (late_watermark st) w.
Proof.
  unfold trigger. intros H w.
  destruct (section_agg self _ batch) as [[s1 df1] |] eqn:H1; [cbn in H | discriminate].
  destruct (timewindow_agg self tz _ _ _ df1) as [[s2 df2] |] eqn:H2;
    [cbn in H | discriminate].
  destruct (rows_to_np_df self _ _ df2) as [[s3 df3] |] eqn:H3;
    [cbn in H | discriminate].
  injection H as _ <-.
  rewrite (rows_to_np_df_windows _ _ _ _ _ H3), elem_of_remove_dups.
  rewrite (timewindow_agg_out_windows _ _ _ _ _ _ H2 w). split.
  - intros (r & Hr & -> & Hopen).
    destruct (proj1 (section_agg_out_keys _ _ _ _ H1 r.1.1.1)) as (p & Hp & Ht).
    { apply (list_elem_of_fmap_2' (fun x : (Z * option Z * Z) * Q => x.1.1.1) _ r);
        [exact Hr | reflexivity]. }
    exists p. rewrite <- Ht. auto.
  - intros (p & Hp & -> & Hopen).
    pose proof (proj2 (section_agg_out_keys _ _ _ _ H1 (Global_Time p))
                  (ex_intro _ p (conj Hp eq_refl))) as Hin.
    apply list_elem_of_fmap in Hin as (r & Ht & Hr).
    exists r. rewrite <- Ht. auto.
Qed.









End Streaming.

Section StreamingClaims.

Local Open Scope Z_scope.

Import Realtime.





End StreamingClaims.

(** * Further properties of the code *)

(** ** Filters, unit conversion and sorting *)

Section Preparation.

Local Open Scope Z_scope.

Import Prep.

Global Instance le_by_total {A : Type} (col : A -> Z) : Total (le_by col).
Proof. intros a b. unfold le_by. lia. Qed.

Global Instance le_by_trans {A : Type} (col : A -> Z) : Transitive (le_by col).
Proof. intros a b c. unfold le_by. lia. Qed.

Lemma sort_by_sorted {A : Type} (col : A -> Z) (df : list A) :
  StronglySorted (le_by col) (sort_by col df).
Proof. apply StronglySorted_merge_sort; apply _. Qed.

Lemma sort_by_Permutation {A : Type} (col : A -> Z) (df : list A) : sort_by col df ≡ₚ df.
Proof. apply merge_sort_Permutation. Qed.

Lemma merged_lane_idemp (lane : Z) : merged_lane (merged_lane lane) = merged_lane lane.
Proof.
  unfold merged_lane. destruct (decide (lane ∈ [7; 8])) as [H | H]; [| now rewrite decide_False].
  rewrite decide_False; [reflexivity |]. set_solver.
Qed.

Lemma merged_lane_not_7_8 (lane : Z) : merged_lane lane <> 7 /\ merged_lane lane <> 8.
Proof.
  unfold merged_lane. destruct (decide (lane ∈ [7; 8])) as [H | H]; [lia |].
  split; intros ->; apply H; set_solver.
Qed.

(** [us101_filter] keeps exactly the rows of location "us-101", each once
    and in the order of the input, changing only their lane: lanes 7 and 8
    become 6 and every other lane is kept, so no returned row is in lane 7
    or 8; applying it twice changes nothing more. *)
Theorem us101_filter_merges_ramp_lanes (df : list Row) :
  (forall r, r ∈ us101_filter df ->
     Location r = "us-101"%string /\ Lane_ID r <> 7 /\ Lane_ID r <> 8
     /\ exists r0, r0 ∈ df /\ Location r0 = Location r
                   /\ Lane_ID r = (if decide (Lane_ID r0 = 7 \/ Lane_ID r0 = 8)
                                   then 6 else Lane_ID r0)
                   /\ (ElapsedTime r0, hour r0, datetime r0, Distance r0, Vehicle_ID r0,
                       v_Vel r0, v_Acc r0, lat r0, lon r0)
                      = (ElapsedTime r, hour r, datetime r, Distance r, Vehicle_ID r,
                         v_Vel r, v_Acc r, lat r, lon r))
  /\ length (us101_filter df)
     = length (filter (fun r => Location r = "us-101"%string) df)
  /\ us101_filter (us101_filter df) = us101_filter df
  /\ (fun r => (Location r, ElapsedTime r, hour r, datetime r, Distance r, Vehicle_ID r,
                v_Vel r, v_Acc r, lat r, lon r)) <$> us101_filter df
     = (fun r => (Location r, ElapsedTime r, hour r, datetime r, Distance r, Vehicle_ID r,
                  v_Vel r, v_Acc r, lat r, lon r))
         <$> filter (fun r => Location r = "us-101"%string) df
  /\ Lane_ID <$> us101_filter df
     = (fun r => if decide (Lane_ID r = 7 \/ Lane_ID r = 8) then 6 else Lane_ID r)
         <$> filter (fun r => Location r = "us-101"%string) df.
Proof.
  split; [| split; [| split; [| split]]].
  - intros r (r0 & -> & [Hloc Hr0]%list_elem_of_filter)%list_elem_of_fmap. cbn.
    split; [exact Hloc |].
    destruct (merged_lane_not_7_8 (Lane_ID r0)) as [H7 H8].
    split; [exact H7 |]. split; [exact H8 |].
    exists r0. split; [exact Hr0 |]. split; [reflexivity |]. split; [| reflexivity].
    unfold merged_lane.
    destruct (decide (Lane_ID r0 ∈ [7; 8])) as [H | H],
             (decide (Lane_ID r0 = 7 \/ Lane_ID r0 = 8)) as [H' | H'];
      try reflexivity; exfalso; set_solver.
  - unfold us101_filter. now rewrite length_fmap.
  - unfold us101_filter. induction df as [| r df IH]; [reflexivity |].
    destruct (decide (Location r = "us-101"%string)) as [Hloc | Hloc].
    + rewrite (filter_cons_True _ r df Hloc). cbn [fmap list_fmap].
      rewrite filter_cons_True by exact Hloc. cbn [fmap list_fmap Lane_ID].
      rewrite merged_lane_idemp. f_equal. exact IH.
    + rewrite (filter_cons_False _ r df Hloc). exact IH.
  - unfold us101_filter. rewrite <- list_fmap_compose. reflexivity.
  - unfold us101_filter. rewrite <- list_fmap_compose. apply list_fmap_ext.
    intros i r _. cbn. unfold merged_lane.
    destruct (decide (Lane_ID r ∈ [7; 8])) as [H | H],
             (decide (Lane_ID r = 7 \/ Lane_ID r = 8)) as [H' | H'];
      try reflexivity; exfalso; set_solver.
Qed.

(** [hour_filter] works for the location "us-101" only: there it returns
    the rows whose hour is in the list, each once, with [ElapsedTime]
    reduced by 5413844400 and the other selected columns unchanged, in
    ascending order of the new [ElapsedTime]; for every other location it
    fails with UnboundLocalError, whatever the data. *)
Theorem hour_filter_sorted_selection (df : list Row) (location : string) (hours : list Z) :
  (location = "us-101"%string ->
     exists out,
       hour_filter df location hours = inr out
       /\ StronglySorted (fun a b => h_ElapsedTime a <= h_ElapsedTime b) out
       /\ out ≡ₚ (fun r =>
                    mkHourRow (Location r) (ElapsedTime r - 5413844400) (hour r)
                      (Distance r) (Vehicle_ID r) (Lane_ID r) (v_Vel r) (v_Acc r)
                      (lat r) (lon r))
                   <$> filter (fun r => hour r ∈ hours) df)
  /\ (location <> "us-101"%string ->
       hour_filter df location hours = inl UnboundLocalError).
Proof.
  unfold hour_filter. split; intros Hloc.
  - rewrite decide_True by exact Hloc. eexists. split; [reflexivity |]. split.
    + apply (sort_by_sorted h_ElapsedTime).
    + rewrite sort_by_Permutation. now rewrite sort_by_Permutation.
  - now rewrite decide_False by exact Hloc.
Qed.

Lemma hour_filter_sorted_selection_witness :
  exists out,
    hour_filter [mkRow "us-101" 5413845400 8 2 10 1 2 30 0 34 (-118);
                 mkRow "us-101" 5413844500 8 1 20 2 3 40 1 34 (-118);
                 mkRow "us-101" 5413844600 9 3 20 2 3 40 1 34 (-118)]
      "us-101" [8] = inr out
    /\ StronglySorted (fun a b => h_ElapsedTime a <= h_ElapsedTime b) out.
Proof.
  destruct (hour_filter_sorted_selection
              [mkRow "us-101" 5413845400 8 2 10 1 2 30 0 34 (-118);
               mkRow "us-101" 5413844500 8 1 20 2 3 40 1 34 (-118);
               mkRow "us-101" 5413844600 9 3 20 2 3 40 1 34 (-118)]
              "us-101" [8]) as [H _].
  destruct (H eq_refl) as (out & H1 & H2 & _). exists out. split; assumption.
Defined.

(** [lane_filter] returns the rows of the requested lane, each once and
    with the selected columns unchanged, in ascending order of
    [ElapsedTime]; after [us101_filter] nothing is left in lanes 7 and 8. *)
Theorem lane_filter_sorted_lane (df : list Row) (lane_id : Z) :
  StronglySorted (fun a b => l_ElapsedTime a <= l_ElapsedTime b) (lane_filter df lane_id)
  /\ lane_filter df lane_id
     ≡ₚ (fun r =>
           mkLaneRow (Location r) (ElapsedTime r) (hour r) (Distance r) (Vehicle_ID r)
             (Lane_ID r) (v_Vel r) (v_Acc r))
          <$> filter (fun r => Lane_ID r = lane_id) df
  /\ (lane_id = 7 \/ lane_id = 8 -> lane_filter (us101_filter df) lane_id = []).
Proof.
  assert (forall l : list Row,
            filter (fun r => l_Lane_ID r = lane_id)
              ((fun r =>
                  mkLaneRow (Location r) (ElapsedTime r) (hour r) (Distance r)
                    (Vehicle_ID r) (Lane_ID r) (v_Vel r) (v_Acc r)) <$> l)
            = (fun r =>
                 mkLaneRow (Location r) (ElapsedTime r) (hour r) (Distance r)
                   (Vehicle_ID r) (Lane_ID r) (v_Vel r) (v_Acc r))
                <$> filter (fun r => Lane_ID r = lane_id) l) as Hcomm.
  { induction l as [| r l IH]; [reflexivity |]. cbn [fmap list_fmap].
    destruct (decide (Lane_ID r = lane_id)) as [Hl | Hl].
    - rewrite filter_cons_True by exact Hl.
      rewrite (filter_cons_True _ r l Hl). cbn [fmap list_fmap]. f_equal. exact IH.
    - rewrite filter_cons_False by exact Hl.
      rewrite (filter_cons_False _ r l Hl). exact IH. }
  unfold lane_filter. split; [| split].
  - apply (sort_by_sorted l_ElapsedTime).
  - rewrite sort_by_Permutation. now rewrite Hcomm.
  - intros Hlane. rewrite Hcomm.
    assert (filter (fun r => Lane_ID r = lane_id) (us101_filter df) = []) as ->;
      [| reflexivity].
    apply elem_of_nil_inv. intros r [Hl Hr]%list_elem_of_filter.
    apply list_elem_of_fmap in Hr as (r0 & -> & _). cbn in Hl.
    destruct (merged_lane_not_7_8 (Lane_ID r0)). lia.
Qed.

Lemma sum_scaled (c : Q) (l : list Q) :
  (F.sum ((fun x => x / c) <$> l) == F.sum l / c)%Q.
Proof.
  induction l as [| x l IH]; cbn.
  - unfold Qdiv. now rewrite Qmult_0_l.
  - unfold F.sum in IH. rewrite IH. unfold Qdiv. ring.
Qed.

(** [convert_to_mph] keeps the rows, their order and their other columns
    and divides the velocity and the acceleration of each row by
    1.46666667; averaging commutes with it:
    the mean velocity of the converted rows is the mean velocity of the
    original rows divided by 1.46666667, whatever the rounding applied
    afterwards. *)
Theorem convert_to_mph_scales_mean (df : list Row) (scale : nat) :
  length (convert_to_mph df) = length df
  /\ v_Vel <$> convert_to_mph df = (fun r => v_Vel r / (146666667 # 100000000))%Q <$> df
  /\ v_Acc <$> convert_to_mph df = (fun r => v_Acc r / (146666667 # 100000000))%Q <$> df
  /\ (fun r => (Location r, ElapsedTime r, hour r, datetime r, Distance r, Vehicle_ID r,
                Lane_ID r, lat r, lon r)) <$> convert_to_mph df
     = (fun r => (Location r, ElapsedTime r, hour r, datetime r, Distance r, Vehicle_ID r,
                  Lane_ID r, lat r, lon r)) <$> df
  /\ (F.avg (v_Vel <$> convert_to_mph df) == F.avg (v_Vel <$> df) / fps_per_mph)%Q
  /\ (F.avg (v_Acc <$> convert_to_mph df) == F.avg (v_Acc <$> df) / fps_per_mph)%Q
  /\ F.round (F.avg (v_Vel <$> convert_to_mph df)) scale
     = F.round (F.avg (v_Vel <$> df) / fps_per_mph) scale.
Proof.
  assert (forall col : Row -> Q,
            (forall r, col (mkRow (Location r) (ElapsedTime r) (hour r) (datetime r)
                              (Distance r) (Vehicle_ID r) (Lane_ID r)
                              (v_Vel r / fps_per_mph) (v_Acc r / fps_per_mph)
                              (lat r) (lon r)) = (col r / fps_per_mph)%Q) ->
            (F.avg (col <$> convert_to_mph df) == F.avg (col <$> df) / fps_per_mph)%Q) as Havg.
  { intros col Hcol. unfold F.avg, convert_to_mph. rewrite !length_fmap.
    rewrite <- list_fmap_compose.
    rewrite (list_fmap_ext (col ∘ _) ((fun x => (x / fps_per_mph)%Q) ∘ col) df)
      by (intros i r _; apply Hcol).
    rewrite list_fmap_compose, sum_scaled. unfold Qdiv. ring. }
  split; [apply length_fmap |].
  split; [unfold convert_to_mph; now rewrite <- list_fmap_compose |].
  split; [unfold convert_to_mph; now rewrite <- list_fmap_compose |].
  split; [unfold convert_to_mph; now rewrite <- list_fmap_compose |].
  split; [apply Havg; reflexivity |]. split; [apply Havg; reflexivity |].
  apply round_comp, Havg. reflexivity.
Qed.

(** [add_timewindow_col] and the two [timewindow_agg] label rows alike: the
    keys of the rows returned by the older [timewindow_agg] are exactly the
    (TimeWindow, Section_ID, Lane_ID) of the rows [add_timewindow_col]
    returns, and every row that the newer [timewindow_agg] admits is
    returned by [add_timewindow_col] with the window it is grouped under. *)
Theorem add_timewindow_col_agrees (df : list Utils.FineRow) (start end_ timewindow : Z) :
  (forall k,
     k ∈ Utils.coarse_key <$> Legacy.timewindow_agg df start end_ timewindow <->
     exists r w, (r, w) ∈ add_timewindow_col df start end_ timewindow
                 /\ k = (w, Utils.f_Section_ID r, Utils.f_Lane_ID r))
  /\ (forall r, r ∈ Utils.admitted start end_ 45 df ->
        (r, (Utils.window_key timewindow r).1.1)
        ∈ add_timewindow_col df start end_ timewindow).
Proof.
  assert (forall r,
            r ∈ Utils.admitted start end_ 0 df <->
            (r, Utils.TimeWindow (Utils.f_ElapsedTime r) timewindow)
            ∈ add_timewindow_col df start end_ timewindow) as Hadm.
  { intros r. unfold Utils.admitted, add_timewindow_col.
    rewrite list_elem_of_filter, list_elem_of_fmap. split.
    - intros [[Hlo Hhi] Hr]. exists r. split; [reflexivity |].
      apply list_elem_of_filter. split; [split; lia | exact Hr].
    - intros (r' & [= <- _] & [[Hlo Hhi] Hr]%list_elem_of_filter).
      split; [split; lia | exact Hr]. }
  split.
  - intros k. unfold Legacy.timewindow_agg. split.
    + intros (o & -> & (kg & -> & Hkg)%list_elem_of_fmap)%list_elem_of_fmap.
      destruct kg as [k g]. rewrite window_row_key.
      apply elem_of_groupBy in Hkg as [(r & Hr & <-) _].
      exists r, (Utils.TimeWindow (Utils.f_ElapsedTime r) timewindow).
      split; [now apply Hadm | reflexivity].
    + intros (r & w & Hrw & ->).
      assert (w = Utils.TimeWindow (Utils.f_ElapsedTime r) timewindow) as ->.
      { unfold add_timewindow_col in Hrw.
        apply list_elem_of_fmap in Hrw as (r' & [= -> ->] & _). reflexivity. }
      apply Hadm in Hrw.
      apply list_elem_of_fmap.
      exists (Utils.window_row (Utils.window_key timewindow r,
                filter (fun r' => Utils.window_key timewindow r'
                                  = Utils.window_key timewindow r)
                  (Utils.admitted start end_ 0 df))).
      split; [now rewrite window_row_key |].
      apply list_elem_of_fmap_2, groupBy_covers, Hrw.
  - intros r Hr. cbn. apply Hadm.
    unfold Utils.admitted in *. apply list_elem_of_filter in Hr as [[Hlo Hhi] Hr].
    apply list_elem_of_filter. split; [split; lia | exact Hr].
Qed.

End Preparation.

(** ** More on the two batch aggregations *)

Section GroupCounts.

Local Open Scope Z_scope.

Context {R K : Type} `{EqDecision K} (key : R -> K).

Lemma filter_key_cons (k : K) (ks : list K) (df : list R) :
  k ∉ ks ->
  length (filter (fun r => key r ∈ k :: ks) df)
  = (length (filter (fun r => key r = k) df)
     + length (filter (fun r => key r ∈ ks) df))%nat.
Proof.
  intros Hk. induction df as [| r df IH]; [reflexivity |].
  destruct (decide (key r = k)) as [E | E].
  - rewrite (filter_cons_True (fun r => key r ∈ k :: ks)) by (rewrite E; left).
    rewrite (filter_cons_True (fun r => key r = k)) by exact E.
    rewrite (filter_cons_False (fun r => key r ∈ ks)) by (rewrite E; exact Hk).
    cbn. now rewrite IH.
  - rewrite (filter_cons_False (fun r => key r = k)) by exact E.
    destruct (decide (key r ∈ ks)) as [I | I].
    + rewrite (filter_cons_True (fun r => key r ∈ k :: ks)) by now right.
      rewrite (filter_cons_True (fun r => key r ∈ ks)) by exact I.
      cbn. rewrite IH. lia.
    + rewrite (filter_cons_False (fun r => key r ∈ k :: ks)).
      * rewrite (filter_cons_False (fun r => key r ∈ ks)) by exact I. exact IH.
      * intros [? | ?]%elem_of_cons; contradiction.
Qed.

Lemma group_sizes (ks : list K) (df : list R) :
  NoDup ks ->
  foldr Z.add 0 ((fun k => Z.of_nat (length (filter (fun r => key r = k) df))) <$> ks)
  = Z.of_nat (length (filter (fun r => key r ∈ ks) df)).
Proof.
  induction 1 as [| k ks Hk _ IH]; cbn [fmap list_fmap foldr].
  - assert (filter (fun r => key r ∈ []) df = []) as ->; [| reflexivity].
    apply elem_of_nil_inv. intros r [Hr _]%list_elem_of_filter.
    now apply elem_of_nil in Hr.
  - rewrite IH, (filter_key_cons k ks df Hk). lia.
Qed.

Lemma filter_all (P : R -> Prop) `{forall r, Decision (P r)} (df : list R) :
  (forall r, r ∈ df -> P r) -> filter P df = df.
Proof.
  induction df as [| r df IH]; intros Hall; [reflexivity |].
  rewrite filter_cons_True by (apply Hall; left).
  f_equal. apply IH. intros r' Hr'. apply Hall. now right.
Qed.

(** The groups of a [groupBy] split the rows: their sizes add up to the
    number of rows. *)
Lemma groupBy_sizes (df : list R) :
  foldr Z.add 0 ((fun g => Z.of_nat (length g.2)) <$> F.groupBy key df)
  = Z.of_nat (length df).
Proof.
  unfold F.groupBy. rewrite <- list_fmap_compose.
  erewrite list_fmap_ext; [rewrite (group_sizes _ df (NoDup_remove_dups _)) |].
  - rewrite filter_all; [reflexivity |].
    intros r Hr. rewrite elem_of_remove_dups. now apply list_elem_of_fmap_2.
  - intros i k _. reflexivity.
Qed.

End GroupCounts.

Section MoreBatchAggregation.

Local Open Scope Z_scope.

Import Utils.

(** [section_agg] counts every point once: each returned row has a count of
    at least 1 and the counts of the returned rows add up to the number of
    input points (so an empty input gives no row). *)
Theorem section_agg_counts_partition (df : list Point) (max_dist n : Z) :
  n <> 0 ->
  exists out,
    section_agg df max_dist n = Ok out
    /\ (forall o, o ∈ out -> 1 <= f_count o)
    /\ foldr Z.add 0 (f_count <$> out) = Z.of_nat (length df)
    /\ (df = [] -> out = []).
Proof.
  intros Hn. eexists. split; [now apply section_agg_total |].
  set (key := section_key (max_dist / n)). split; [| split].
  - intros o (kg & -> & Hkg)%list_elem_of_fmap. destruct kg as [[[t s] l] g].
    pose proof (groupBy_group_nonempty key df _ g Hkg) as Hne.
    cbn. unfold F.count. destruct g; [contradiction | cbn; lia].
  - rewrite <- list_fmap_compose, <- (groupBy_sizes key df).
    f_equal. apply list_fmap_ext. intros i [[[t s] l] g] _. reflexivity.
  - intros ->. reflexivity.
Qed.

Lemma section_agg_counts_partition_witness :
  10 <> 0
  /\ exists out,
       section_agg [mkPoint 0 6 250 50 1; mkPoint 0 6 260 55 0; mkPoint 0 1 270 60 (-1)]
         1000 10 = Ok out
       /\ foldr Z.add 0 (f_count <$> out) = 3.
Proof.
  split; [lia |].
  destruct (section_agg_counts_partition
              [mkPoint 0 6 250 50 1; mkPoint 0 6 260 55 0; mkPoint 0 1 270 60 (-1)]
              1000 10 ltac:(lia)) as (out & H1 & _ & H2 & _).
  exists out. split; assumption.
Defined.

(** The counts returned by [timewindow_agg] add up to the number of fine
    rows inside [[start * 1000, end * 1000 - 45)], each count is at least 1,
    and rows outside that range change nothing: the result is the same as
    for the admitted rows alone. *)
Theorem timewindow_agg_counts_partition (df : list FineRow) (start end_ timewindow : Z) :
  (forall o, o ∈ timewindow_agg df start end_ timewindow -> 1 <= w_count o)
  /\ foldr Z.add 0 (w_count <$> timewindow_agg df start end_ timewindow)
     = Z.of_nat (length (admitted start end_ 45 df))
  /\ timewindow_agg (admitted start end_ 45 df) start end_ timewindow
     = timewindow_agg df start end_ timewindow.
Proof.
  unfold timewindow_agg. set (key := window_key timewindow). split; [| split].
  - intros o (kg & -> & Hkg)%list_elem_of_fmap. destruct kg as [[[t s] l] g].
    pose proof (groupBy_group_nonempty key _ _ g Hkg) as Hne.
    cbn. unfold F.count. destruct g; [contradiction | cbn; lia].
  - rewrite <- list_fmap_compose, <- (groupBy_sizes key (admitted start end_ 45 df)).
    f_equal. apply list_fmap_ext. intros i [[[t s] l] g] _. reflexivity.
  - f_equal. f_equal. unfold admitted. apply filter_all.
    intros r [Hr _]%list_elem_of_filter. exact Hr.
Qed.

Lemma section_row_Permutation (k : Z * option Z * Z) (g g' : list Point) :
  g ≡ₚ g' -> section_row (k, g) = section_row (k, g').
Proof.
  intros Hp. destruct k as [[t s] l]. unfold section_row, F.avg, F.count.
  rewrite !length_fmap, (Permutation_length Hp).
  f_equal; apply round_comp.
  - now rewrite (sum_Permutation (p_v_Vel <$> g) (p_v_Vel <$> g')) by now rewrite Hp.
  - now rewrite (sum_Permutation (p_v_Acc <$> g) (p_v_Acc <$> g')) by now rewrite Hp.
Qed.

(** The result of [section_agg] does not depend on the order of the input
    rows: for two inputs with the same rows in different orders it returns
    the same rows (each once), possibly in another order. *)
Theorem section_agg_input_order (df df' : list Point) (max_dist n : Z) :
  df ≡ₚ df' -> n <> 0 ->
  exists out out',
    section_agg df max_dist n = Ok out
    /\ section_agg df' max_dist n = Ok out'
    /\ NoDup out /\ out ≡ₚ out'.
Proof.
  intros Hp Hn. eexists _, _.
  split; [now apply section_agg_total |]. split; [now apply section_agg_total |].
  set (key := section_key (max_dist / n)).
  assert (forall d, NoDup (section_row <$> F.groupBy key d)) as Hnd.
  { intros d. apply (NoDup_fmap_1 fine_key). rewrite <- list_fmap_compose.
    erewrite list_fmap_ext; [apply (groupBy_keys_NoDup key d) |].
    intros i [k g] _. apply section_row_key. }
  assert (forall d d', d ≡ₚ d' -> forall o,
            o ∈ section_row <$> F.groupBy key d -> o ∈ section_row <$> F.groupBy key d')
    as Hsub.
  { intros d d' Hdd o (kg & -> & Hkg)%list_elem_of_fmap. destruct kg as [k g].
    apply elem_of_groupBy in Hkg as [(r & Hr & Hk) ->].
    rewrite (section_row_Permutation k _ (filter (fun r => key r = k) d'))
      by now rewrite Hdd.
    apply list_elem_of_fmap_2, elem_of_groupBy. split; [| reflexivity].
    exists r. split; [now rewrite <- Hdd | exact Hk]. }
  split; [apply Hnd |].
  apply NoDup_Permutation; [apply Hnd | apply Hnd |].
  intros o. split; apply Hsub; [exact Hp | symmetry; exact Hp].
Qed.

Lemma section_agg_input_order_witness :
  exists out out',
    section_agg [mkPoint 0 6 250 50 1; mkPoint 0 1 270 60 (-1)] 1000 10 = Ok out
    /\ section_agg [mkPoint 0 1 270 60 (-1); mkPoint 0 6 250 50 1] 1000 10 = Ok out'
    /\ NoDup out /\ out ≡ₚ out'.
Proof.
  apply (section_agg_input_order
           [mkPoint 0 6 250 50 1; mkPoint 0 1 270 60 (-1)]
           [mkPoint 0 1 270 60 (-1); mkPoint 0 6 250 50 1] 1000 10).
  - apply perm_swap.
  - lia.
Defined.

(** The averages returned by [section_agg] are within half a unit of their
    last decimal of the exact means of the group: 0.05 for the velocity and
    0.005 for the acceleration. *)
Theorem section_agg_rounding_error (df : list Point) (max_dist n : Z) (out : list FineRow)
    (o : FineRow) :
  section_agg df max_dist n = Ok out -> o ∈ out ->
  let g := filter (fun p => section_key (max_dist / n) p = fine_key o) df in
  (Qabs (f_avg_v_Vel o - F.sum (p_v_Vel <$> g) / inject_Z (Z.of_nat (length g))) <= 1 # 20)%Q
  /\ (Qabs (f_avg_v_Acc o - F.sum (p_v_Acc <$> g) / inject_Z (Z.of_nat (length g)))
      <= 1 # 200)%Q.
Proof.
  intros H Ho g.
  assert (n <> 0) as Hn.
  { intros ->. unfold section_agg, Py.floordiv in H. cbn in H. discriminate. }
  rewrite section_agg_total in H by exact Hn. injection H as <-.
  apply list_elem_of_fmap in Ho as ([k g'] & -> & Hkg).
  subst g. rewrite section_row_key.
  apply elem_of_groupBy in Hkg as [_ ->].
  set (g := filter _ df). destruct k as [[t s] l]. cbn. unfold F.avg.
  rewrite !length_fmap. split.
  - exact (round_nearest (F.sum (p_v_Vel <$> g) / inject_Z (Z.of_nat (length g))) 1).
  - exact (round_nearest (F.sum (p_v_Acc <$> g) / inject_Z (Z.of_nat (length g))) 2).
Qed.

Lemma section_agg_rounding_error_witness :
  exists out o,
    section_agg [Utils.mkPoint 0 6 250 50 1; Utils.mkPoint 0 6 260 (553 # 10) 0] 1000 10 = Ok out
    /\ o ∈ out
    /\ (Qabs (f_avg_v_Vel o - (50 + (553 # 10)) / 2) <= 1 # 20)%Q.
Proof.
  eexists _, _. split; [vm_compute; reflexivity |]. split; [left |].
  pose proof (section_agg_rounding_error
                [Utils.mkPoint 0 6 250 50 1; Utils.mkPoint 0 6 260 (553 # 10) 0] 1000 10
                _ _ eq_refl ltac:(left)) as [H _].
  vm_compute in H. vm_compute. exact H.
Defined.

End MoreBatchAggregation.

(** ** Windows and sections as intervals *)

Section Buckets.

Local Open Scope Z_scope.

Lemma saturate_int_mono (a b : Z) : a <= b -> F.saturate_int a <= F.saturate_int b.
Proof. unfold F.saturate_int. lia. Qed.

Lemma div_bucket (t size w : Z) :
  0 < size -> (t / size = w <-> w * size <= t < (w + 1) * size).
Proof.
  intros Hs. pose proof (Z.div_mod t size ltac:(lia)) as Hdm.
  pose proof (Z.mod_pos_bound t size Hs) as Hm. split.
  - intros <-. nia.
  - intros [Hlo Hhi]. symmetry. apply (Z.div_unique t size w (t - w * size)); lia.
Qed.

(** Window ids follow time: with a positive window size a later record
    never gets a smaller [TimeWindow], and for elapsed times from 0 on the
    window [w] holds exactly the records with
    [w * size <= ElapsedTime < (w + 1) * size], [size] being the window size
    in milliseconds. *)
Theorem time_window_interval (t t' timewindow : Z) :
  0 < timewindow ->
  (t <= t' ->
     exists a b, Utils.TimeWindow t timewindow = Some a
                 /\ Utils.TimeWindow t' timewindow = Some b /\ a <= b)
  /\ (0 <= t -> t / (timewindow * 1000) <= F.int_max ->
      forall w, Utils.TimeWindow t timewindow = Some w
                <-> w * (timewindow * 1000) <= t < (w + 1) * (timewindow * 1000)).
Proof.
  intros Htw. split.
  - intros Hle. rewrite !TimeWindow_cast by lia. eexists _, _.
    split; [reflexivity |]. split; [reflexivity |].
    apply saturate_int_mono, Z.quot_le_mono; lia.
  - intros Ht Hmax w. rewrite TimeWindow_cast by lia.
    rewrite Z.quot_div_nonneg by lia.
    assert (0 <= t / (timewindow * 1000)) by (apply Z.div_pos; lia).
    rewrite saturate_int_range by (unfold F.int_min; lia).
    rewrite <- div_bucket by lia. split; [now intros [= ->] | now intros ->].
Qed.

Lemma time_window_interval_witness :
  0 < 30
  /\ (Utils.TimeWindow 59999 30 = Some 1 <-> 1 * (30 * 1000) <= 59999 < (1 + 1) * (30 * 1000)).
Proof.
  split; [lia |].
  apply (time_window_interval 59999 59999 30); [lia | lia | vm_compute; discriminate].
Defined.

Lemma Qfloor_bucket (x : Q) (k : Z) :
  Qfloor x = k <-> (inject_Z k <= x /\ x < inject_Z (k + 1))%Q.
Proof.
  split.
  - intros <-. split; [apply Qfloor_le | apply Qlt_floor].
  - intros [Hlo Hhi].
    pose proof (Qfloor_le x) as H1. pose proof (Qlt_floor x) as H2.
    assert (Qfloor x < k + 1) by (rewrite Zlt_Qlt; eapply Qle_lt_trans; eassumption).
    assert (k < Qfloor x + 1) by (rewrite Zlt_Qlt; eapply Qle_lt_trans; eassumption).
    lia.
Qed.

Lemma quotient_bucket (d : Q) (w k : Z) :
  0 < w ->
  (inject_Z k <= d / inject_Z w /\ d / inject_Z w < inject_Z (k + 1))%Q
  <-> (inject_Z (k * w) <= d /\ d < inject_Z ((k + 1) * w))%Q.
Proof.
  intros Hw.
  assert (0 < inject_Z w)%Q as Hw' by (change 0%Q with (inject_Z 0); now rewrite <- Zlt_Qlt).
  assert (~ (inject_Z w == 0)%Q) as Hw0 by (intros E; rewrite E in Hw'; discriminate).
  rewrite !inject_Z_mult.
  rewrite <- (Qmult_le_r (inject_Z k) (d / inject_Z w) (inject_Z w) Hw').
  rewrite <- (Qmult_lt_r (d / inject_Z w) (inject_Z (k + 1)) (inject_Z w) Hw').
  assert (d / inject_Z w * inject_Z w == d)%Q as -> by (field; exact Hw0).
  reflexivity.
Qed.

(** Sections follow distance: with a positive bucket width and distances
    from 0 on, a greater distance never gets a smaller [Section_ID], and
    section [k] holds exactly the distances with
    [k * width <= Distance < (k + 1) * width]. *)
Theorem section_id_interval (d d' : Q) (width : Z) :
  0 < width -> (0 <= d)%Q ->
  ((d <= d')%Q ->
     exists a b, Utils.Section_ID d width = Some a
                 /\ Utils.Section_ID d' width = Some b /\ a <= b)
  /\ (Qfloor (d / inject_Z width) <= F.int_max ->
      forall k, Utils.Section_ID d width = Some k
                <-> (inject_Z (k * width) <= d /\ d < inject_Z ((k + 1) * width))%Q).
Proof.
  intros Hw Hd. split.
  - intros Hle. rewrite !Section_ID_cast by lia. eexists _, _.
    split; [reflexivity |]. split; [reflexivity |].
    unfold F.cast_integer. apply saturate_int_mono.
    rewrite !Qtrunc_nonneg.
    + apply Qfloor_resp_le. unfold Qdiv. apply Qmult_le_compat_r; [exact Hle |].
      apply Qinv_le_0_compat. change 0%Q with (inject_Z 0). rewrite <- Zle_Qle. lia.
    + apply quotient_nonneg; [eapply Qle_trans; eassumption | exact Hw].
    + now apply quotient_nonneg.
  - intros Hmax k. rewrite Section_ID_cast by lia. unfold F.cast_integer.
    rewrite Qtrunc_nonneg by now apply quotient_nonneg.
    pose proof (Qfloor_resp_le _ _ (quotient_nonneg d width Hd Hw)) as H0.
    change (Qfloor 0) with 0 in H0.
    rewrite saturate_int_range by (unfold F.int_min; lia).
    rewrite <- quotient_bucket by exact Hw.
    pose proof (Qfloor_bucket (d / inject_Z width) k) as Hb.
    split; [intros [= E]; now apply Hb | intros E; f_equal; now apply Hb].
Qed.

Lemma section_id_interval_witness :
  0 < 100 /\ (0 <= 199)%Q
  /\ (Utils.Section_ID 199 100 = Some 1
      <-> (inject_Z (1 * 100) <= 199 /\ 199 < inject_Z ((1 + 1) * 100))%Q).
Proof.
  split; [lia |]. split; [discriminate |].
  apply (section_id_interval 199 199 100); [lia | discriminate | vm_compute; discriminate].
Defined.

End Buckets.

(** ** More on the matrix renderers *)

Section MoreRendering.

Local Open Scope Z_scope.

Import Utils.

Lemma for_each_fill_success (nl ns : Z) (wr : bool) (rows : list StatRow) (m : Matrices) :
  shaped (Z.to_nat nl) (Z.to_nat ns) m ->
  (forall r, r ∈ rows -> skipped wr r = false -> exists i j, cell nl ns r = Ok (i, j)) ->
  exists m', Py.for_each (fill_row ns wr) m rows = Ok m'
             /\ shaped (Z.to_nat nl) (Z.to_nat ns) m'.
Proof.
  revert m. induction rows as [| r rows IH]; intros m Hsh Hok; cbn; [eauto |].
  assert (exists m1, fill_row ns wr m r = Ok m1) as [m1 H1].
  { destruct (skipped wr r) eqn:Hk.
    - exists m. now apply fill_row_skipped.
    - destruct (Hok r ltac:(left) Hk) as (i & j & Hc).
      exact (fill_row_total nl ns wr m r i j Hsh Hc). }
  rewrite H1. cbn. apply IH.
  - apply (for_each_shaped nl ns wr [r] m m1 Hsh). cbn. now rewrite H1.
  - intros r' Hr'. apply Hok. now right.
Qed.

Lemma for_each_fill_failure (nl ns : Z) (wr : bool) (rows : list StatRow) (m : Matrices)
    (r : StatRow) (e : exn) :
  shaped (Z.to_nat nl) (Z.to_nat ns) m ->
  r ∈ rows -> skipped wr r = false -> cell nl ns r = Raise e ->
  Py.for_each (fill_row ns wr) m rows = Raise IndexError.
Proof.
  revert m. induction rows as [| r' rows IH]; intros m Hsh Hr Hk Hc.
  - now apply elem_of_nil in Hr.
  - cbn. destruct (fill_row ns wr m r') as [m1 | e1] eqn:H1; cbn.
    + apply elem_of_cons in Hr as [-> | Hr].
      * rewrite (fill_row_index_error nl ns wr m r' e Hsh Hk Hc) in H1. discriminate.
      * apply (IH m1); try assumption.
        apply (for_each_shaped nl ns wr [r'] m m1 Hsh). cbn. now rewrite H1.
    + destruct (skipped wr r') eqn:Hk'.
      * rewrite fill_row_skipped in H1 by exact Hk'. discriminate.
      * destruct (cell nl ns r') as [[i j] | e'] eqn:Hc'.
        -- destruct (fill_row_total nl ns wr m r' i j Hsh Hc') as [m1 H1'].
           congruence.
        -- rewrite (fill_row_index_error nl ns wr m r' e' Hsh Hk' Hc') in H1.
           congruence.
Qed.

Lemma create_np_matrices_outcome (rows : list StatRow) (nl ns : Z) (wr : bool) :
  0 <= nl -> 0 <= ns ->
  ((forall r, r ∈ rows -> skipped wr r = false -> exists i j, cell nl ns r = Ok (i, j)) ->
     exists m, create_np_matrices rows nl ns wr = Ok m
               /\ shaped (Z.to_nat nl) (Z.to_nat ns) m)
  /\ ((exists r e, r ∈ rows /\ skipped wr r = false /\ cell nl ns r = Raise e) ->
      create_np_matrices rows nl ns wr = Raise IndexError).
Proof.
  intros Hl Hs. unfold create_np_matrices.
  destruct (init_matrices_total nl ns Hl Hs) as [m0 H0]. rewrite H0. cbn.
  apply init_matrices_spec in H0 as (_ & _ & Hsh & _). split.
  - intros Hok. exact (for_each_fill_success nl ns wr rows m0 Hsh Hok).
  - intros (r & e & Hr & Hk & Hc).
    exact (for_each_fill_failure nl ns wr rows m0 r e Hsh Hr Hk Hc).
Qed.

(** For non-negative dimensions [create_np_matrices] returns matrices,
    all three of [num_lanes] rows by [num_sections] columns, exactly when
    every row that is not skipped has its lane and clamped section inside
    the matrices (by Python's indexing); otherwise, wherever the offending
    row stands, it ends with IndexError and returns nothing. *)
Theorem create_np_matrices_succeeds_iff (rows : list StatRow) (nl ns : Z) (wr : bool) :
  0 <= nl -> 0 <= ns ->
  ((forall r, r ∈ rows -> skipped wr r = false -> exists i j, cell nl ns r = Ok (i, j)) ->
     exists m, create_np_matrices rows nl ns wr = Ok m
               /\ shaped (Z.to_nat nl) (Z.to_nat ns) m)
  /\ ((exists r e, r ∈ rows /\ skipped wr r = false /\ cell nl ns r = Raise e) ->
      create_np_matrices rows nl ns wr = Raise IndexError).
Proof. exact (create_np_matrices_outcome rows nl ns wr). Qed.

Lemma create_np_matrices_succeeds_iff_witness :
  0 <= 6 /\ 0 <= 10
  /\ create_np_matrices [mkStatRow 2 9 (402 # 10) 7 0; mkStatRow 7 0 50 1 0] 6 10 true
     = Raise IndexError.
Proof.
  split; [lia |]. split; [lia |].
  apply (create_np_matrices_succeeds_iff
           [mkStatRow 2 9 (402 # 10) 7 0; mkStatRow 7 0 50 1 0] 6 10 true); [lia | lia |].
  exists (mkStatRow 7 0 50 1 0), IndexError.
  split; [right; left |]. split; reflexivity.
Defined.

Lemma fill_row_without_ramp (ns : Z) (m : Matrices) (r : StatRow) :
  fill_row ns false m r = if decide (r_Lane_ID r = 6) then Ok m else fill_row ns true m r.
Proof.
  unfold fill_row, skipped. cbn [negb andb].
  destruct (Z.eqb_spec (r_Lane_ID r) 6), (decide (r_Lane_ID r = 6)); try contradiction;
    reflexivity.
Qed.

(** Rendering without the ramp is rendering the records of the other
    lanes: with [with_ramp = False] the result, matrices or exception, is
    the one obtained with [with_ramp = True] after the records of lane 6
    have been removed; a lane-6 record cannot even make it fail. *)
Theorem without_ramp_drops_lane_6 (rows : list StatRow) (nl ns : Z) :
  create_np_matrices rows nl ns false
  = create_np_matrices (filter (fun r => r_Lane_ID r <> 6) rows) nl ns true.
Proof.
  unfold create_np_matrices. destruct (init_matrices nl ns) as [m0 |]; [cbn | reflexivity].
  revert m0. induction rows as [| r rows IH]; intros m0; [reflexivity |].
  cbn [Py.for_each]. rewrite fill_row_without_ramp.
  destruct (decide (r_Lane_ID r = 6)) as [E | E].
  - rewrite filter_cons_False by (intros H; now apply H). cbn. apply IH.
  - rewrite filter_cons_True by exact E. cbn [Py.for_each].
    destruct (fill_row ns true m0 r); cbn; [apply IH | reflexivity].
Qed.

(** Indices below the range wrap around instead of failing: a record
    whose [Lane_ID - 1] is negative but not below [-num_lanes] is written to
    the row counted from the end (lane 0 lands in the last lane's row), and
    a negative section not below [-num_sections] is written to the column
    counted from the end. *)
Theorem negative_indices_wrap (nl ns : Z) (wr : bool) (r : StatRow) :
  - nl <= r_Lane_ID r - 1 < 0 \/ 0 <= r_Lane_ID r - 1 < nl ->
  - ns <= r_Section_ID r < 0 \/ 0 <= r_Section_ID r < ns ->
  skipped wr r = false ->
  let i := Z.to_nat (if r_Lane_ID r - 1 <? 0 then nl + (r_Lane_ID r - 1)
                     else r_Lane_ID r - 1) in
  let j := Z.to_nat (if r_Section_ID r <? 0 then ns + r_Section_ID r
                     else r_Section_ID r) in
  exists m, create_np_matrices [r] nl ns wr = Ok m /\ cells m i j = written r.
Proof.
  intros Hlane Hsec Hk i j.
  assert (clamp_section ns (r_Section_ID r) = r_Section_ID r) as Hcl.
  { unfold clamp_section. destruct (Z.eqb_spec (r_Section_ID r) ns); [lia | reflexivity]. }
  assert (cell nl ns r = Ok (i, j)) as Hc.
  { unfold cell, Py.index. rewrite Hcl. subst i j.
    destruct (Z.ltb_spec (r_Lane_ID r - 1) 0), (Z.ltb_spec (r_Section_ID r) 0);
      repeat match goal with
             | |- context [?a <=? ?b] => destruct (Z.leb_spec a b); try lia
             | |- context [?a <? ?b] => destruct (Z.ltb_spec a b); try lia
             end; cbn; repeat f_equal; lia. }
  destruct (create_np_matrices_total [r] nl ns wr) as [m Hm]; [lia | lia | |].
  { intros r' ->%list_elem_of_singleton. eauto. }
  exists m. split; [exact Hm |].
  apply (last_writer [] [] r nl ns wr m i j Hm Hk Hc).
  intros r' Hr'. now apply elem_of_nil in Hr'.
Qed.

Lemma negative_indices_wrap_witness :
  exists m,
    create_np_matrices [mkStatRow 0 (-1) (402 # 10) 7 0] 6 10 true = Ok m
    /\ cells m 5 9 = written (mkStatRow 0 (-1) (402 # 10) 7 0).
Proof.
  apply (negative_indices_wrap 6 10 true (mkStatRow 0 (-1) (402 # 10) 7 0));
    [left; cbn; lia | left; cbn; lia | reflexivity].
Defined.

Lemma shape_ext {A : Type} (nr nc : nat) (a b : list (list A)) :
  Np.shape nr nc a -> Np.shape nr nc b ->
  (forall i j, Np.get a i j = Np.get b i j) -> a = b.
Proof.
  intros [La Ra] [Lb Rb] Hget. apply list_eq. intros i.
  destruct (a !! i) as [ra |] eqn:Ha, (b !! i) as [rb |] eqn:Hb.
  - f_equal. apply list_eq. intros j. specialize (Hget i j).
    unfold Np.get in Hget. now rewrite Ha, Hb in Hget.
  - apply lookup_lt_Some in Ha. apply lookup_ge_None in Hb. lia.
  - apply lookup_lt_Some in Hb. apply lookup_ge_None in Ha. lia.
  - reflexivity.
Qed.

Lemma shaped_ext (nr nc : nat) (m m' : Matrices) :
  shaped nr nc m -> shaped nr nc m' ->
  (forall i j, cells m i j = cells m' i j) -> m = m'.
Proof.
  intros (Sv & Sd & Sa) (Sv' & Sd' & Sa') Hc.
  destruct m as [v d a], m' as [v' d' a']. cbn in *. f_equal.
  - apply (shape_ext nr nc); [assumption | assumption |].
    intros i j. specialize (Hc i j). unfold cells in Hc. cbn in Hc. congruence.
  - apply (shape_ext nr nc); [assumption | assumption |].
    intros i j. specialize (Hc i j). unfold cells in Hc. cbn in Hc. congruence.
  - apply (shape_ext nr nc); [assumption | assumption |].
    intros i j. specialize (Hc i j). unfold cells in Hc. cbn in Hc. congruence.
Qed.

Lemma hit_or_miss (nl ns : Z) (wr : bool) (rows : list StatRow) (i j : nat) :
  (exists r, r ∈ rows /\ skipped wr r = false /\ cell nl ns r = Ok (i, j))
  \/ (forall r, r ∈ rows -> skipped wr r = false -> cell nl ns r <> Ok (i, j)).
Proof.
  induction rows as [| r rows [(r' & Hr' & Hk & Hc) | IH]].
  - right. intros r Hr. now apply elem_of_nil in Hr.
  - left. exists r'. split; [now right | now split].
  - destruct (skipped wr r) eqn:Hk.
    + right. intros r' [-> | Hr']%elem_of_cons; [congruence | now apply IH].
    + destruct (cell nl ns r) as [[a b] | e] eqn:Hc.
      * destruct (decide (a = i)) as [-> | Ha]; [destruct (decide (b = j)) as [-> | Hb] |].
        -- left. exists r. split; [left | now split].
        -- right. intros r' [-> | Hr']%elem_of_cons; [congruence | now apply IH].
        -- right. intros r' [-> | Hr']%elem_of_cons; [congruence | now apply IH].
      * right. intros r' [-> | Hr']%elem_of_cons; [congruence | now apply IH].
Qed.

Lemma unique_hit (nl ns : Z) (wr : bool) (rows : list StatRow) (r : StatRow)
    (m : Matrices) (i j : nat) :
  NoDup (cell nl ns <$> filter (fun r => skipped wr r = false) rows) ->
  r ∈ rows -> skipped wr r = false -> cell nl ns r = Ok (i, j) ->
  create_np_matrices rows nl ns wr = Ok m ->
  cells m i j = written r.
Proof.
  intros Hnd Hr Hk Hc Hm.
  apply list_elem_of_split in Hr as (pre & post & ->).
  apply (last_writer pre post r nl ns wr m i j Hm Hk Hc).
  intros r' Hr' Hk' Hc'.
  rewrite filter_app, filter_cons_True, fmap_app, fmap_cons in Hnd by exact Hk.
  apply NoDup_app in Hnd as (_ & _ & Hnd). apply NoDup_cons in Hnd as [Hnotin _].
  apply Hnotin. rewrite Hc, <- Hc'. apply list_elem_of_fmap_2.
  apply list_elem_of_filter. now split.
Qed.

(** When no two of the written records share a cell, the order in which
    [create_np_matrices] receives the records does not matter: any
    rearrangement of the same records gives the same three matrices. *)
Theorem rendering_order_irrelevant (rows rows' : list StatRow) (nl ns : Z) (wr : bool)
    (m : Matrices) :
  rows ≡ₚ rows' ->
  NoDup (cell nl ns <$> filter (fun r => skipped wr r = false) rows) ->
  create_np_matrices rows nl ns wr = Ok m ->
  create_np_matrices rows' nl ns wr = Ok m.
Proof.
  intros Hp Hnd Hm.
  assert (exists m0, init_matrices nl ns = Ok m0) as [m0 H0].
  { unfold create_np_matrices in Hm. destruct (init_matrices nl ns); [eauto | discriminate]. }
  destruct (init_matrices_spec nl ns m0 H0) as (Hl & Hs & Hsh0 & _).
  destruct (create_np_matrices_outcome rows nl ns wr Hl Hs) as [Hok Hfail].
  destruct (create_np_matrices_outcome rows' nl ns wr Hl Hs) as [Hok' _].
  assert (forall r, r ∈ rows -> skipped wr r = false ->
                    exists i j, cell nl ns r = Ok (i, j)) as Hrange.
  { intros r Hr Hk. destruct (cell nl ns r) as [[i j] | e] eqn:Hc; [eauto |].
    rewrite Hfail in Hm by eauto. discriminate. }
  destruct (Hok Hrange) as (m1 & Hm1 & Hsh). assert (m1 = m) as -> by congruence.
  destruct Hok' as (m' & Hm' & Hsh').
  { intros r Hr. apply Hrange. now rewrite Hp. }
  rewrite Hm'. f_equal. apply (shaped_ext _ _ _ _ Hsh' Hsh). intros i j.
  assert (NoDup (cell nl ns <$> filter (fun r => skipped wr r = false) rows')) as Hnd'
    by now rewrite <- Hp.
  destruct (hit_or_miss nl ns wr rows i j) as [(r & Hr & Hk & Hc) | Hmiss].
  - rewrite (unique_hit nl ns wr rows r m i j Hnd Hr Hk Hc Hm).
    apply (unique_hit nl ns wr rows' r m' i j Hnd'); try assumption. now rewrite <- Hp.
  - unfold create_np_matrices in Hm, Hm'. rewrite H0 in Hm, Hm'. cbn in Hm, Hm'.
    rewrite (for_each_keeps nl ns wr i j rows m0 m Hsh0 Hm Hmiss).
    apply (for_each_keeps nl ns wr i j rows' m0 m' Hsh0 Hm').
    intros r Hr. apply Hmiss. now rewrite Hp.
Qed.

Lemma rendering_order_irrelevant_witness :
  exists m,
    create_np_matrices [mkStatRow 2 9 (402 # 10) 7 0; mkStatRow 1 0 50 1 0] 6 10 true = Ok m
    /\ create_np_matrices [mkStatRow 1 0 50 1 0; mkStatRow 2 9 (402 # 10) 7 0] 6 10 true
       = Ok m.
Proof.
  eexists. split; [vm_compute; reflexivity |].
  apply (rendering_order_irrelevant
           [mkStatRow 2 9 (402 # 10) 7 0; mkStatRow 1 0 50 1 0]
           [mkStatRow 1 0 50 1 0; mkStatRow 2 9 (402 # 10) 7 0] 6 10 true).
  - apply perm_swap.
  - vm_compute. repeat constructor; set_solver.
  - vm_compute. reflexivity.
Defined.

End MoreRendering.

(** ** More on the streaming query *)

Section MoreStreaming.

Local Open Scope Z_scope.

Import Realtime.

Variable self : Predictor.
Variable tz : Z -> Z.

(** The records a micro-batch writes to the sink are keyed by exactly the
    windows of the points of that micro-batch that are not late: a window
    is written if and only if the micro-batch holds a point of it and the
    window ends after the watermark used for late rows. *)
Theorem trigger_writes_windows_of_batch (st st' : State) (batch : list Point)
    (out : list (Z * list (list (list Z)))) :
  trigger self tz st batch = Ok (st', out) ->
  forall w, w ∈ out.*1
            <-> exists p, p ∈ batch /\ w = window_start self (convert_timestamp tz (Global_Time p))
                          /\ open_at self (late_watermark st) w.
Proof. exact (trigger_out_windows self tz st st' batch out). Qed.

Lemma filter_none {A : Type} (P : A -> Prop) `{forall x, Decision (P x)} (l : list A) :
  (forall x, x ∈ l -> ~ P x) -> filter P l = [].
Proof.
  intros Hno. apply elem_of_nil_inv. intros x [HP Hx]%list_elem_of_filter.
  exact (Hno x Hx HP).
Qed.

(** Late data is dropped: a micro-batch all of whose points belong to
    windows that ended at or before the watermark used for late rows (an
    empty micro-batch in particular) writes nothing to the sink and adds
    nothing to the window buffers or to the collected rows, which only lose
    the windows closed by the current watermark. *)
Theorem late_batch_is_dropped (st st' : State) (batch : list Point)
    (out : list (Z * list (list (list Z)))) :
  (forall p, p ∈ batch -> ~ open_at self (late_watermark st) (window_start self (convert_timestamp tz (Global_Time p)))) ->
  trigger self tz st batch = Ok (st', out) ->
  out = []
  /\ window_state st' = filter (fun kv => open_at self (watermark st) kv.1.1.1) (window_state st)
  /\ rows_state st' = filter (fun kv => open_at self (watermark st) kv.1) (rows_state st).
Proof.
  intros Hlate H.
  assert (out.*1 = []) as Hkeys.
  { apply elem_of_nil_inv. intros w Hw.
    apply (trigger_out_windows self tz _ _ _ _ H) in Hw as (p & Hp & -> & Hopen).
    exact (Hlate p Hp Hopen). }
  assert (out = []) as -> by (destruct out; [reflexivity | discriminate]).
  split; [reflexivity |].
  unfold trigger in H.
  destruct (section_agg self _ batch) as [[s1 df1] |] eqn:H1; [cbn in H | discriminate].
  destruct (timewindow_agg self tz _ _ _ df1) as [[s2 df2] |] eqn:H2;
    [cbn in H | discriminate].
  destruct (rows_to_np_df self _ _ df2) as [[s3 df3] |] eqn:H3;
    [cbn in H | discriminate].
  injection H as <- ->. cbn.
  unfold timewindow_agg in H2. destruct (timewindow self <=? 0); [discriminate |].
  rewrite filter_none in H2.
  - injection H2 as <- <-.
    unfold rows_to_np_df, avg_output, updated in H3.
    cbn [fmap list_fmap remove_dups Py.map_each Py.bind] in H3.
    injection H3 as <-. split; reflexivity.
  - intros r Hr Hopen.
    apply list_elem_of_fmap in Hr as ([[[t s] l] v] & -> & Hr). cbn in Hopen.
    destruct (proj1 (section_agg_out_keys self _ _ _ _ H1 t)) as (p & Hp & Ht).
    { apply (list_elem_of_fmap_2' (fun x : (Z * option Z * Z) * Q => x.1.1.1) _ (t, s, l, v));
        [exact Hr | reflexivity]. }
    apply (Hlate p Hp). now rewrite <- Ht.
Qed.

End MoreStreaming.

Section MoreStreamingRuns.

Local Open Scope Z_scope.

Import Realtime.

Lemma late_batch_is_dropped_witness :
  exists st' out,
    trigger (mkPredictor 20 2 2 true 30) (fun _ => -25200000)
      (mkState ∅ ∅ ∅ 1118819151200 1118819151200)
      [mkPoint 1118846981200 1 (402 # 10) 5] = Ok (st', out)
    /\ out = [].
Proof.
  assert (forall p, p ∈ [mkPoint 1118846981200 1 (402 # 10) 5] ->
            ~ open_at (mkPredictor 20 2 2 true 30)
                (late_watermark (mkState ∅ ∅ ∅ 1118819151200 1118819151200))
                (window_start (mkPredictor 20 2 2 true 30)
                   (convert_timestamp (fun _ => -25200000) (Global_Time p)))) as Hlate.
  { intros p ->%list_elem_of_singleton. vm_compute. intros H. discriminate H. }
  destruct (trigger (mkPredictor 20 2 2 true 30) (fun _ => -25200000)
              (mkState ∅ ∅ ∅ 1118819151200 1118819151200)
              [mkPoint 1118846981200 1 (402 # 10) 5]) as [[st' out] | e] eqn:E.
  - exists st', out. split; [reflexivity |].
    exact (proj1 (late_batch_is_dropped _ _ _ _ _ _ Hlate E)).
  - vm_compute in E. discriminate E.
Defined.

(** The watermark never moves backward: over any sequence of micro-batches
    the watermark of the final state is at least that of the initial state,
    the watermark used for late rows follows it from behind, and there is
    one output per micro-batch. *)
Theorem watermark_never_decreases (self : Predictor) (tz : Z -> Z) (st st' : State)
    (batches : list (list Point)) (outs : list (list (Z * list (list (list Z))))) :
  run self tz st batches = Ok (st', outs) ->
  watermark st <= watermark st'
  /\ (late_watermark st <= watermark st ->
      late_watermark st <= late_watermark st' /\ late_watermark st' <= watermark st').
Proof.
  intros H. split.
  - revert st st' outs H. induction batches as [| b bs IH]; intros st st' outs H; cbn in H.
    + injection H as <- _. lia.
    + destruct (trigger self tz st b) as [[s1 o1] |] eqn:H1; [cbn in H | discriminate].
      destruct (run self tz s1 bs) as [[s2 o2] |] eqn:H2; [cbn in H | discriminate].
      injection H as <- _.
      destruct (trigger_spec _ _ _ _ _ _ H1) as (_ & _ & _ & Hwm).
      specialize (IH _ _ _ H2). lia.
  - intros Hinv. destruct (run_spec self tz _ _ _ _ H Hinv) as (H1 & H2 & _). lia.
Qed.

Lemma watermark_never_decreases_witness :
  exists st' outs,
    run (mkPredictor 20 2 2 true 30) (fun _ => -25200000) init
      [[mkPoint 1118846980200 1 50 5]; [mkPoint 1118846000000 1 50 5]] = Ok (st', outs)
    /\ watermark init <= watermark st'.
Proof.
  destruct (run (mkPredictor 20 2 2 true 30) (fun _ => -25200000) init
              [[mkPoint 1118846980200 1 50 5]; [mkPoint 1118846000000 1 50 5]])
    as [[st' outs] | e] eqn:E; [| vm_compute in E; discriminate E].
  exists st', outs. split; [reflexivity |].
  exact (proj1 (watermark_never_decreases _ _ _ _ _ _ E)).
Defined.

(** [F.window] cuts time into aligned intervals: with a positive window
    length the start of the window of a timestamp is a multiple of the
    length, the timestamp lies in [[start, start + length)], and two
    timestamps share a window exactly when they have the same quotient by
    the length. *)
Theorem window_start_aligned (self : Predictor) (dt dt' : Z) :
  0 < timewindow self ->
  window_start self dt <= dt < window_start self dt + duration self
  /\ window_start self dt mod duration self = 0
  /\ (window_start self dt = window_start self dt'
      <-> dt / duration self = dt' / duration self).
Proof.
  intros Htw. unfold window_start.
  assert (0 < duration self) as Hd by (unfold duration; lia).
  pose proof (Z.mod_pos_bound dt (duration self) Hd) as Hm.
  pose proof (Z.div_mod dt (duration self) ltac:(lia)) as Hdm.
  pose proof (Z.div_mod dt' (duration self) ltac:(lia)) as Hdm'.
  split; [lia |]. split.
  - replace (dt - dt mod duration self) with (dt / duration self * duration self) by lia.
    apply Z.mod_mul. lia.
  - replace (dt - dt mod duration self) with (duration self * (dt / duration self)) by lia.
    replace (dt' - dt' mod duration self) with (duration self * (dt' / duration self)) by lia.
    split; [intros H; nia | now intros ->].
Qed.

Lemma window_start_aligned_witness :
  0 < timewindow (mkPredictor 20 2 2 true 30)
  /\ window_start (mkPredictor 20 2 2 true 30) 1118818171200 mod 30000 = 0.
Proof.
  split; [cbn; lia |].
  apply (window_start_aligned (mkPredictor 20 2 2 true 30) 1118818171200 0). cbn. lia.
Defined.

Lemma trigger_writes_windows_of_batch_witness :
  exists st' out,
    trigger (mkPredictor 20 2 2 true 30) (fun _ => -25200000) init
      [mkPoint 1118846980200 1 50 5] = Ok (st', out)
    /\ (1118818170000 ∈ out.*1
        <-> exists p, p ∈ [mkPoint 1118846980200 1 50 5]
                      /\ 1118818170000
                         = window_start (mkPredictor 20 2 2 true 30)
                             (convert_timestamp (fun _ => -25200000) (Global_Time p))
                      /\ open_at (mkPredictor 20 2 2 true 30) (late_watermark init)
                           1118818170000).
Proof.
  destruct (trigger (mkPredictor 20 2 2 true 30) (fun _ => -25200000) init
              [mkPoint 1118846980200 1 50 5]) as [[st' out] | e] eqn:E;
    [| vm_compute in E; discriminate E].
  exists st', out. split; [reflexivity |].
  exact (trigger_writes_windows_of_batch _ _ _ _ _ _ E 1118818170000).
Defined.

Lemma for_each_invariant {S T : Type} (P : S -> Prop) (body : S -> T -> result S)
    (rows : list T) (s s' : S) :
  (forall a r b, P a -> body a r = Ok b -> P b) ->
  P s -> Py.for_each body s rows = Ok s' -> P s'.
Proof.
  intros Hbody. revert s. induction rows as [| r rows IH]; intros s Hs H; cbn in H.
  - now injection H as <-.
  - destruct (body s r) as [s1 |] eqn:H1; [cbn in H | discriminate].
    exact (IH s1 (Hbody _ _ _ Hs H1) H).
Qed.

Lemma setitem_newaxis_shape {A : Type} (nr nc : nat) (m m' : list (list A)) (i : Z) (v : A) :
  Np.shape nr nc m -> Np.setitem_newaxis m i v = Ok m' -> Np.shape nr nc m'.
Proof.
  intros [Hlen Hrows] H. unfold Np.setitem_newaxis in H.
  destruct (Py.index (length m) i) as [i' |]; [cbn in H | discriminate].
  destruct (m !! i') as [row |] eqn:Hrow; [| discriminate].
  injection H as <-. split; [now rewrite length_insert |].
  apply Forall_insert; [exact Hrows |]. rewrite length_replicate.
  eapply Forall_lookup_1 in Hrows; [exact Hrows | exact Hrow].
Qed.

(** The matrix [to_3d_np] returns for a window always has [num_lanes] rows
    of [num_section_splits + 1] cells, each cell a one-element list, one
    column more than the matrices of the batch renderer; without rows every
    cell holds 60. *)
Theorem to_3d_np_shape (self : Predictor) (rows : list (Z * option Z * Q))
    (mat : list (list (list Z))) :
  to_3d_np self rows = Ok mat ->
  length mat = Z.to_nat (num_lanes self)
  /\ Forall (fun row => length row = Z.to_nat (num_section_splits self + 1)
                        /\ Forall (fun c => length c = 1%nat) row) mat
  /\ to_3d_np self []
     = Ok (replicate (Z.to_nat (num_lanes self))
             (replicate (Z.to_nat (num_section_splits self + 1)) [60])).
Proof.
  unfold to_3d_np. intros H.
  destruct (Np.full (num_lanes self) (num_section_splits self + 1) 60) as [m0 |] eqn:H0;
    [cbn in H | discriminate].
  destruct (Py.for_each _ m0 rows) as [m1 |] eqn:H1; [cbn in H | discriminate].
  injection H as <-.
  pose proof H0 as Hfull. apply full_shape in H0 as (_ & _ & Hsh & _).
  assert (Np.shape (Z.to_nat (num_lanes self)) (Z.to_nat (num_section_splits self + 1)) m1)
    as [Hlen Hrows].
  { refine (for_each_invariant _ _ rows m0 m1 _ Hsh H1).
    intros a [[l s] v] b Ha Hb.
    destruct (negb (with_ramp self) && (l - 1 =? 5)); [now injection Hb as <- |].
    destruct s as [s |].
    - destruct (setitem_spec _ _ _ _ _ _ _ Ha Hb) as (? & ? & _ & _ & Hshape & _).
      exact Hshape.
    - exact (setitem_newaxis_shape _ _ _ _ _ _ Ha Hb). }
  split; [now rewrite length_fmap |]. split.
  - apply Forall_fmap. eapply Forall_impl; [exact Hrows |].
    intros row Hrow. cbn. split; [now rewrite length_fmap |].
    apply Forall_fmap. apply Forall_forall. reflexivity.
  - unfold Np.full in Hfull |- *.
    destruct ((num_lanes self <? 0) || (num_section_splits self + 1 <? 0));
      [discriminate |].
    injection Hfull as <-. cbn [Py.bind Py.for_each]. f_equal.
    rewrite fmap_replicate. cbn beta. now rewrite fmap_replicate.
Qed.

Lemma to_3d_np_shape_witness :
  exists mat,
    to_3d_np (mkPredictor 20 2 2 true 30) [(1, Some 3, 402 # 10); (2, None, 50%Q)] = Ok mat
    /\ length mat = 2%nat.
Proof.
  destruct (to_3d_np (mkPredictor 20 2 2 true 30) [(1, Some 3, 402 # 10); (2, None, 50%Q)])
    as [mat | e] eqn:E; [| vm_compute in E; discriminate E].
  exists mat. split; [reflexivity |].
  exact (proj1 (to_3d_np_shape _ _ _ E)).
Defined.

End MoreStreamingRuns.

(** ** The older renderer of datapreprocessing.py *)

Section LegacyRendering.

Local Open Scope Z_scope.

Import Utils.

Lemma list_index_seqZ (m n x : Z) :
  Py.list_index (seqZ m n) x
  = if decide (m <= x < m + n) then Ok (Z.to_nat (x - m)) else Raise ValueError.
Proof.
  unfold Py.list_index.
  destruct (list_find (fun y => y = x) (seqZ m n)) as [[i y] |] eqn:E.
  - apply list_find_Some in E as (Hl & -> & _).
    apply lookup_seqZ in Hl as [-> Hi].
    rewrite decide_True by lia. f_equal. lia.
  - apply list_find_None in E. destruct (decide (m <= x < m + n)) as [Hx | Hx];
      [exfalso | reflexivity].
    rewrite Forall_forall in E. apply (E x); [| reflexivity].
    apply list_elem_of_lookup. exists (Z.to_nat (x - m)).
    apply lookup_seqZ. split; lia.
Qed.

Lemma setitem_nat {A : Type} (nr nc : nat) (m : list (list A)) (i j : nat) (v : A) :
  Np.shape nr nc m -> (i < nr)%nat -> (j < nc)%nat ->
  exists m', Np.setitem m (Z.of_nat i) (Z.of_nat j) v = Ok m'
             /\ Np.shape nr nc m' /\ Np.get m' i j = Some v.
Proof.
  intros Hsh Hi Hj.
  assert (Py.index nr (Z.of_nat i) = Ok i) as Hxi
    by (rewrite index_in_range by lia; now rewrite Nat2Z.id).
  assert (Py.index nc (Z.of_nat j) = Ok j) as Hxj
    by (rewrite index_in_range by lia; now rewrite Nat2Z.id).
  destruct (setitem_total nr nc m (Z.of_nat i) (Z.of_nat j) v i j Hsh Hxi Hxj) as [m' Hm'].
  exists m'. split; [exact Hm' |].
  destruct (setitem_spec nr nc m m' _ _ v Hsh Hm') as (i' & j' & Hi' & Hj' & Hs' & Hg & _).
  assert (i' = i) as -> by congruence. assert (j' = j) as -> by congruence. now split.
Qed.

(** The older [create_np_matrices] accepts exactly the records with
    [0 <= Section_ID <= num_section] and [1 <= Lane_ID <= 6]: if all records
    are such it returns three matrices of 6 rows by [num_section + 1]
    columns, and any other record, wherever it stands, makes it fail with
    ValueError.  It neither clamps nor truncates: when it returns, the
    cell of the last record holds that record's average velocity, count and
    average acceleration exactly as given. *)
Theorem legacy_create_np_matrices_range (df : list StatRow) (num_section : Z) :
  let in_range r :=
    0 <= r_Section_ID r <= num_section /\ 1 <= r_Lane_ID r <= 6 in
  let nc := Z.to_nat (num_section + 1) in
  ((forall r, r ∈ df -> in_range r) ->
     exists v d a, Legacy.create_np_matrices df num_section = Ok (v, d, a)
                   /\ Np.shape 6 nc v /\ Np.shape 6 nc d /\ Np.shape 6 nc a)
  /\ ((exists r, r ∈ df /\ ~ in_range r) ->
      Legacy.create_np_matrices df num_section = Raise ValueError)
  /\ (forall pre r v d a,
        df = pre ++ [r] ->
        Legacy.create_np_matrices df num_section = Ok (v, d, a) ->
        let i := Z.to_nat (r_Lane_ID r - 1) in
        let j := Z.to_nat (r_Section_ID r) in
        Np.get v i j = Some (r_avg_v_Vel r)
        /\ Np.get d i j = Some (inject_Z (r_count r))
        /\ Np.get a i j = Some (r_avg_v_Acc r)).
Proof.
  intros in_range nc. unfold Legacy.create_np_matrices.
  rewrite length_seqZ. fold nc. change (length [1; 2; 3; 4; 5; 6]) with 6%nat.
  match goal with |- context [Py.for_each ?b _ df] => set (body := b) end.
  set (inv := fun s : list (list Q) * list (list Q) * list (list Q) =>
                Np.shape 6 nc s.1.1 /\ Np.shape 6 nc s.1.2 /\ Np.shape 6 nc s.2).
  assert (forall s r, inv s -> in_range r ->
            exists s', body s r = Ok s' /\ inv s'
                       /\ Np.get s'.1.1 (Z.to_nat (r_Lane_ID r - 1)) (Z.to_nat (r_Section_ID r))
                          = Some (r_avg_v_Vel r)
                       /\ Np.get s'.1.2 (Z.to_nat (r_Lane_ID r - 1)) (Z.to_nat (r_Section_ID r))
                          = Some (inject_Z (r_count r))
                       /\ Np.get s'.2 (Z.to_nat (r_Lane_ID r - 1)) (Z.to_nat (r_Section_ID r))
                          = Some (r_avg_v_Acc r)) as Hok.
  { intros [[v d] a] r (Sv & Sd & Sa) [Hs Hl]. unfold body. cbn in Sv, Sd, Sa.
    rewrite list_index_seqZ, decide_True by lia. cbn [Py.bind].
    change [1; 2; 3; 4; 5; 6] with (seqZ 1 6).
    rewrite list_index_seqZ, decide_True by lia. cbn [Py.bind].
    rewrite Z.sub_0_r.
    destruct (setitem_nat 6 nc v (Z.to_nat (r_Lane_ID r - 1)) (Z.to_nat (r_Section_ID r))
                (r_avg_v_Vel r) Sv) as (v' & -> & Sv' & Gv); [lia | subst nc; lia |].
    destruct (setitem_nat 6 nc d (Z.to_nat (r_Lane_ID r - 1)) (Z.to_nat (r_Section_ID r))
                (inject_Z (r_count r)) Sd) as (d' & -> & Sd' & Gd); [lia | subst nc; lia |].
    destruct (setitem_nat 6 nc a (Z.to_nat (r_Lane_ID r - 1)) (Z.to_nat (r_Section_ID r))
                (r_avg_v_Acc r) Sa) as (a' & -> & Sa' & Ga); [lia | subst nc; lia |].
    cbn. eexists. split; [reflexivity |]. unfold inv. cbn. tauto. }
  assert (forall s r, ~ in_range r -> body s r = Raise ValueError) as Hbad.
  { intros [[v d] a] r Hr. unfold body.
    rewrite list_index_seqZ.
    destruct (decide (0 <= r_Section_ID r < 0 + (num_section + 1))); [| reflexivity].
    cbn [Py.bind]. change [1; 2; 3; 4; 5; 6] with (seqZ 1 6).
    rewrite list_index_seqZ.
    destruct (decide (1 <= r_Lane_ID r < 1 + 6)); [| reflexivity].
    exfalso. apply Hr. unfold in_range. lia. }
  assert (inv (replicate 6 (replicate nc 0%Q), replicate 6 (replicate nc 0%Q),
               replicate 6 (replicate nc 0%Q))) as Hinit.
  { assert (Np.shape 6 nc (replicate 6 (replicate nc 0%Q))) as Hz.
    { split; [apply length_replicate | apply Forall_replicate, length_replicate]. }
    unfold inv. cbn. tauto. }
  revert Hinit. generalize (replicate 6 (replicate nc 0%Q), replicate 6 (replicate nc 0%Q),
                            replicate 6 (replicate nc 0%Q)).
  intros s0 Hinit. split; [| split].
  - revert s0 Hinit. induction df as [| r df IH]; intros s0 Hinit Hall.
    + destruct s0 as [[v d] a]. exists v, d, a. split; [reflexivity | exact Hinit].
    + cbn [Py.for_each].
      destruct (Hok s0 r Hinit (Hall r ltac:(left))) as (s1 & -> & Hinv1 & _).
      cbn [Py.bind]. apply IH; [exact Hinv1 |]. intros r' Hr'. apply Hall. now right.
  - intros (r & Hr & Hnot). revert s0 Hinit.
    induction df as [| r' df IH]; intros s0 Hinit; [now apply elem_of_nil in Hr |].
    cbn [Py.for_each].
    assert (in_range r' \/ ~ in_range r') as [Hin | Hout] by (unfold in_range; lia).
    + destruct (Hok s0 r' Hinit Hin) as (s1 & -> & Hinv1 & _). cbn [Py.bind].
      apply elem_of_cons in Hr as [-> | Hr]; [contradiction |]. now apply IH.
    + now rewrite Hbad.
  - intros pre r v d a -> H. rewrite for_each_app in H.
    destruct (Py.for_each body s0 pre) as [s1 |] eqn:H1; [cbn in H | discriminate].
    assert (inv s1) as Hinv1.
    { refine (for_each_invariant inv body pre s0 s1 _ Hinit H1).
      intros x r0 y Hx Hy.
      assert (in_range r0 \/ ~ in_range r0) as [Hin | Hout] by (unfold in_range; lia).
      - destruct (Hok x r0 Hx Hin) as (y' & Hy' & Hinv' & _). congruence.
      - rewrite Hbad in Hy by exact Hout. discriminate. }
    assert (in_range r \/ ~ in_range r) as [Hin | Hout] by (unfold in_range; lia).
    + destruct (Hok s1 r Hinv1 Hin) as (s2 & Hs2 & _ & Gv & Gd & Ga).
      rewrite Hs2 in H. cbn in H. injection H as ->. cbn in Gv, Gd, Ga. tauto.
    + rewrite Hbad in H by exact Hout. discriminate.
Qed.

Lemma legacy_create_np_matrices_range_witness :
  exists v d a,
    Legacy.create_np_matrices
      ([mkStatRow 2 9 (402 # 10) 7 0] ++ [mkStatRow 1 10 (557 # 10) 3 (25 # 100)]) 10
    = Ok (v, d, a)
    /\ Np.get v 0 10 = Some (557 # 10).
Proof.
  destruct (Legacy.create_np_matrices
              ([mkStatRow 2 9 (402 # 10) 7 0] ++ [mkStatRow 1 10 (557 # 10) 3 (25 # 100)]) 10)
    as [[[v d] a] | e] eqn:E; [| vm_compute in E; discriminate E].
  exists v, d, a. split; [reflexivity |].
  destruct (legacy_create_np_matrices_range
              ([mkStatRow 2 9 (402 # 10) 7 0] ++ [mkStatRow 1 10 (557 # 10) 3 (25 # 100)]) 10)
    as (_ & _ & H).
  exact (proj1 (H _ _ v d a eq_refl E)).
Defined.

End LegacyRendering.

(** ** The stacked result of rdd_to_np_matrices *)

Section Stacking.

Local Open Scope Z_scope.

Import Utils.

Lemma lookup_stacked_row (rv : list Z) (rd ra : list Q) (j : nat) :
  zip_with (fun (vd' : Z * Q) (a' : Q) => (inject_Z vd'.1, vd'.2, a')) (zip rv rd) ra !! j
  = (v ← rv !! j; d ← rd !! j; a ← ra !! j; Some (inject_Z v, d, a)).
Proof.
  revert rd ra j.
  induction rv as [| v rv IH]; intros [| d rd] [| a ra] [| j]; cbn;
    try reflexivity;
    try (now destruct (rv !! j));
    try (destruct (rv !! j); [| reflexivity]; now destruct (rd !! j)).
  apply IH.
Qed.

Lemma get_stack (m : Matrices) (i j : nat) :
  Np.get (stack m) i j
  = (v ← Np.get (vel_matrix m) i j;
     d ← Np.get (dens_matrix m) i j;
     a ← Np.get (acc_matrix m) i j;
     Some (inject_Z v, d, a)).
Proof.
  unfold stack, Np.get. rewrite !lookup_zip_with.
  destruct (vel_matrix m !! i) as [rv |]; [| reflexivity].
  destruct (dens_matrix m !! i) as [rd |];
    [| cbn [mbind option_bind]; now destruct (rv !! j)].
  destruct (acc_matrix m !! i) as [ra |]; cbn [mbind option_bind].
  - apply lookup_stacked_row.
  - destruct (rv !! j); [| reflexivity]. now destruct (rd !! j).
Qed.

(** [rdd_to_np_matrices] returns the key it was given together with the
    matrices of [create_np_matrices] laid cell by cell: entry (lane,
    section) is the triple (velocity, density, acceleration) of the three
    matrices, whose first component is a whole number; it fails exactly
    when [create_np_matrices] fails, with the same exception. *)
Theorem rdd_to_np_matrices_cells (key : Z) (iter : list StatRow) (nl ns : Z) (wr : bool) :
  (forall e, create_np_matrices iter nl ns wr = Raise e ->
             rdd_to_np_matrices key iter nl ns wr = Raise e)
  /\ (forall m, create_np_matrices iter nl ns wr = Ok m ->
        exists x,
          rdd_to_np_matrices key iter nl ns wr = Ok (key, x)
          /\ length x = Z.to_nat nl
          /\ forall i j, (i < Z.to_nat nl)%nat -> (j < Z.to_nat ns)%nat ->
               exists v d a,
                 cells m i j = (Some v, Some d, Some a)
                 /\ Np.get x i j = Some (inject_Z v, d, a)).
Proof.
  rewrite rdd_to_np_matrices_create. split.
  - intros e ->. reflexivity.
  - intros m Hm. rewrite Hm. cbn. eexists. split; [reflexivity |].
    assert (shaped (Z.to_nat nl) (Z.to_nat ns) m) as (Sv & Sd & Sa).
    { unfold create_np_matrices in Hm.
      destruct (init_matrices nl ns) as [m0 |] eqn:H0; [cbn in Hm | discriminate].
      apply init_matrices_spec in H0 as (_ & _ & Hsh & _).
      exact (for_each_shaped nl ns wr iter m0 m Hsh Hm). }
    assert (forall (A : Type) (mx : list (list A)) i j,
              Np.shape (Z.to_nat nl) (Z.to_nat ns) mx ->
              (i < Z.to_nat nl)%nat -> (j < Z.to_nat ns)%nat ->
              exists v, Np.get mx i j = Some v) as Hget.
    { intros A mx i j [Hlen Hrows] Hi Hj. unfold Np.get.
      destruct (lookup_lt_is_Some_2 mx i ltac:(lia)) as [row Hrow]. rewrite Hrow. cbn.
      eapply Forall_lookup_1 in Hrows; [| exact Hrow].
      apply lookup_lt_is_Some_2. lia. }
    split.
    + unfold stack. rewrite !length_zip_with.
      destruct Sv as [-> _], Sd as [-> _], Sa as [-> _]. lia.
    + intros i j Hi Hj.
      destruct (Hget _ _ i j Sv Hi Hj) as [v Hv].
      destruct (Hget _ _ i j Sd Hi Hj) as [d Hd].
      destruct (Hget _ _ i j Sa Hi Hj) as [a Ha].
      exists v, d, a. unfold cells. rewrite get_stack, Hv, Hd, Ha. split; reflexivity.
Qed.

End Stacking.

(** ** Pivoting one time window *)

Section Pivoting.

Local Open Scope Z_scope.

Import Utils.

Lemma round_idem (q : Q) (scale : nat) : F.round (F.round q scale) scale = F.round q scale.
Proof.
  unfold F.round.
  set (t := 10 ^ Z.of_nat scale).
  assert (0 < t) as Ht by (apply Z.pow_pos_nonneg; lia).
  set (h := F.half_up (q * inject_Z t)).
  assert (F.half_up ((h # Z.to_pos t) * inject_Z t) = h) as ->; [| reflexivity].
  transitivity (F.half_up (inject_Z h)); [| apply half_up_inject_Z].
  apply half_up_comp.
  unfold Qeq, Qmult, inject_Z. cbn [Qnum Qden].
  rewrite Pos.mul_1_r, Z2Pos.id by exact Ht. lia.
Qed.

Lemma avg_singleton (x : Q) : (F.avg [x] == x)%Q.
Proof. unfold F.avg, F.sum. cbn. field. Qed.

Lemma unique_key_group {A K : Type} `{EqDecision K} (f : A -> K) (l : list A) (r : A) :
  NoDup (f <$> l) -> r ∈ l -> filter (fun x => f x = f r) l = [r].
Proof.
  induction l as [| a l IH]; intros Hnd Hr; [now apply elem_of_nil in Hr |].
  rewrite fmap_cons in Hnd. apply NoDup_cons in Hnd as [Ha Hnd].
  apply elem_of_cons in Hr as [-> | Hr].
  - rewrite filter_cons_True by reflexivity. f_equal.
    apply elem_of_nil_inv. intros x [Hx Hin]%list_elem_of_filter.
    apply Ha. rewrite <- Hx. now apply list_elem_of_fmap_2.
  - rewrite filter_cons_False; [now apply IH |].
    intros E. apply Ha. rewrite E. now apply list_elem_of_fmap_2.
Qed.

Lemma pivot_row_spec {V : Type} (agg : list WindowRow -> V) (df : list WindowRow)
    (o : Pivot.PivotRow V) :
  o ∈ Pivot.pivot agg df ->
  exists r, r ∈ df
    /\ (Pivot.TimeWindow o, Pivot.Section_ID o, Pivot.Lane_ID o) = coarse_key r
    /\ Pivot.lanes o
       = (fun p => (p, match filter (fun x => w_Lane_ID x = p)
                               (filter (fun x => coarse_key x = coarse_key r) df) with
                       | [] => None
                       | rows => Some (agg rows)
                       end)) <$> Pivot.pivot_values df.
Proof.
  unfold Pivot.pivot. intros ([k g] & -> & Hkg)%list_elem_of_fmap.
  apply elem_of_groupBy in Hkg as [(r & Hr & <-) ->].
  exists r. split; [exact Hr |]. split; reflexivity.
Qed.

Lemma lane_in_pivot_values (df : list WindowRow) (r : WindowRow) :
  r ∈ df -> w_Lane_ID r ∈ Pivot.pivot_values df.
Proof.
  intros Hr. unfold Pivot.pivot_values. rewrite merge_sort_Permutation.
  rewrite elem_of_remove_dups. now apply list_elem_of_fmap_2.
Qed.

Lemma own_lane_column {V : Type} (agg : list WindowRow -> V) (g : list WindowRow)
    (r : WindowRow) (p : Z) :
  r ∈ g -> (forall x, x ∈ g -> w_Lane_ID x = w_Lane_ID r) ->
  match filter (fun x => w_Lane_ID x = p) g with
  | [] => None
  | rows => Some (agg rows)
  end = if decide (p = w_Lane_ID r) then Some (agg g) else None.
Proof.
  intros Hr Hall. destruct (decide (p = w_Lane_ID r)) as [-> | Hp].
  - rewrite filter_all by exact Hall.
    destruct g; [now apply elem_of_nil in Hr | reflexivity].
  - rewrite filter_none; [reflexivity |].
    intros x Hx E. apply Hp. rewrite <- E. now apply Hall.
Qed.

Lemma pivot_values_NoDup (df : list WindowRow) : NoDup (Pivot.pivot_values df).
Proof.
  unfold Pivot.pivot_values. rewrite merge_sort_Permutation. apply NoDup_remove_dups.
Qed.

Lemma pivot_row_lanes {V : Type} (agg : list WindowRow -> V) (df : list WindowRow)
    (o : Pivot.PivotRow V) :
  o ∈ Pivot.pivot agg df ->
  exists r, r ∈ df
    /\ (Pivot.TimeWindow o, Pivot.Section_ID o, Pivot.Lane_ID o) = coarse_key r
    /\ (Pivot.lanes o).*1 = Pivot.pivot_values df
    /\ Pivot.Lane_ID o ∈ Pivot.pivot_values df
    /\ forall p x, (p, x) ∈ Pivot.lanes o ->
         x = if decide (p = Pivot.Lane_ID o)
             then Some (agg (filter (fun x => coarse_key x = coarse_key r) df))
             else None.
Proof.
  intros Ho. destruct (pivot_row_spec agg df o Ho) as (r & Hr & Hkey & Hlanes).
  assert (Pivot.Lane_ID o = w_Lane_ID r) as Hl by now injection Hkey.
  exists r. split; [exact Hr |]. split; [exact Hkey |]. split; [| split].
  - rewrite Hlanes, <- list_fmap_compose. apply list_fmap_id.
  - rewrite Hl. now apply lane_in_pivot_values.
  - intros p x Hpx. rewrite Hlanes in Hpx.
    apply list_elem_of_fmap in Hpx as (p' & [= -> ->] & _). rewrite Hl.
    apply own_lane_column.
    + apply list_elem_of_filter. split; [reflexivity | exact Hr].
    + intros x [Hx _]%list_elem_of_filter. now injection Hx.
Qed.

(** In the three DataFrames of [timewindow_pivot], whatever DataFrame it is
    given, every row belongs to the requested time window, carries the
    (TimeWindow, Section_ID, Lane_ID) of a row of the input, and has a
    value in exactly one lane column, the one of its own [Lane_ID]; all
    other lane columns are NULL.  Applied to the result of [timewindow_agg]
    (of either copy), the value in that column is the average velocity
    (resp. acceleration) of the row of that key unchanged, and every count
    is 1: the counts computed by [timewindow_agg] are not carried over. *)
Theorem timewindow_pivot_one_lane_per_row (df : list WindowRow) (timewindow_id : Z) :
  let vel_df := (Pivot.timewindow_pivot df timewindow_id).1.1 in
  let dens_df := (Pivot.timewindow_pivot df timewindow_id).1.2 in
  let acc_df := (Pivot.timewindow_pivot df timewindow_id).2 in
  let one_lane (V : Type) (out : list (Pivot.PivotRow V)) :=
    forall o, o ∈ out ->
      Pivot.TimeWindow o = Some timewindow_id
      /\ (exists r, r ∈ df
            /\ coarse_key r = (Pivot.TimeWindow o, Pivot.Section_ID o, Pivot.Lane_ID o))
      /\ NoDup (Pivot.lanes o).*1
      /\ (exists x, (Pivot.Lane_ID o, Some x) ∈ Pivot.lanes o)
      /\ (forall p x, (p, x) ∈ Pivot.lanes o -> (is_Some x <-> p = Pivot.Lane_ID o)) in
  (one_lane Q vel_df /\ one_lane Z dens_df /\ one_lane Q acc_df)
  /\ (forall (df0 : list FineRow) (start end_ timewindow : Z),
        df = timewindow_agg df0 start end_ timewindow
        \/ df = Legacy.timewindow_agg df0 start end_ timewindow ->
        (forall o, o ∈ vel_df ->
           exists r, r ∈ df
             /\ coarse_key r = (Pivot.TimeWindow o, Pivot.Section_ID o, Pivot.Lane_ID o)
             /\ (Pivot.Lane_ID o, Some (w_avg_v_Vel r)) ∈ Pivot.lanes o)
        /\ (forall o, o ∈ dens_df -> (Pivot.Lane_ID o, Some 1) ∈ Pivot.lanes o)
        /\ (forall o, o ∈ acc_df ->
              exists r, r ∈ df
                /\ coarse_key r = (Pivot.TimeWindow o, Pivot.Section_ID o, Pivot.Lane_ID o)
                /\ (Pivot.Lane_ID o, Some (w_avg_v_Acc r)) ∈ Pivot.lanes o)).
Proof.
  intros vel_df dens_df acc_df one_lane.
  set (df' := filter (fun r => w_TimeWindow r = Some timewindow_id) df).
  (* every row of a pivot of the filtered DataFrame *)
  assert (forall (V : Type) (agg : list WindowRow -> V) o,
            o ∈ Pivot.pivot agg df' ->
            exists r, (r ∈ df /\ r ∈ df') /\ w_TimeWindow r = Some timewindow_id
              /\ (Pivot.TimeWindow o, Pivot.Section_ID o, Pivot.Lane_ID o) = coarse_key r
              /\ NoDup (Pivot.lanes o).*1
              /\ (Pivot.Lane_ID o,
                  Some (agg (filter (fun x => coarse_key x = coarse_key r) df')))
                 ∈ Pivot.lanes o
              /\ forall p x, (p, x) ∈ Pivot.lanes o ->
                   x = if decide (p = Pivot.Lane_ID o)
                       then Some (agg (filter (fun x => coarse_key x = coarse_key r) df'))
                       else None) as Hrow.
  { intros V agg o Ho.
    destruct (pivot_row_lanes agg df' o Ho) as (r & Hr & Hkey & Hcols & Hown & Hval).
    pose proof Hr as Hr'. apply list_elem_of_filter in Hr' as [Htw Hrdf].
    exists r. split; [split; assumption |]. split; [exact Htw |]. split; [exact Hkey |].
    split; [rewrite Hcols; apply pivot_values_NoDup |]. split; [| exact Hval].
    rewrite <- Hcols in Hown. apply list_elem_of_fmap in Hown as ([p x] & Hp & Hpx).
    cbn in Hp. subst p. pose proof (Hval _ _ Hpx) as Hx.
    rewrite decide_True in Hx by reflexivity. now subst x. }
  assert (forall V out, (exists agg, out = Pivot.pivot agg df') -> one_lane V out) as Hone.
  { intros V out [agg ->] o Ho.
    destruct (Hrow V agg o Ho) as (r & [Hr _] & Htw & Hkey & Hnd & Hown & Hval).
    split; [injection Hkey as -> _ _; exact Htw |].
    split; [exists r; split; [exact Hr | now rewrite Hkey] |].
    split; [exact Hnd |]. split; [eexists; exact Hown |].
    intros p x Hpx. rewrite (Hval p x Hpx).
    destruct (decide (p = Pivot.Lane_ID o)) as [Hp | Hp].
    - split; [intros _; exact Hp | intros _; eexists; reflexivity].
    - split; [intros [y Hy]; discriminate Hy | intros Hp'; contradiction]. }
  split.
  { split; [| split]; apply Hone; eexists; reflexivity. }
  intros df0 start end_ timewindow Hdf.
  assert (exists guard, df = window_row <$> F.groupBy (window_key timewindow)
                                           (admitted start end_ guard df0)) as [guard Hsrc].
  { destruct Hdf as [-> | ->]; [exists 45 | exists 0]; reflexivity. }
  assert (NoDup (coarse_key <$> df')) as Hnd.
  { eapply sublist_NoDup; [| apply fmap_sublist, sublist_filter].
    rewrite Hsrc, <- list_fmap_compose.
    erewrite list_fmap_ext; [apply groupBy_keys_NoDup |].
    intros i [k g] _. apply window_row_key. }
  assert (forall r, r ∈ df ->
            F.round (w_avg_v_Vel r) 1 = w_avg_v_Vel r
            /\ F.round (w_avg_v_Acc r) 2 = w_avg_v_Acc r) as Hrounded.
  { intros r Hr. rewrite Hsrc in Hr.
    apply list_elem_of_fmap in Hr as ([[[w s] l] g] & -> & _). cbn.
    split; apply round_idem. }
  split; [| split].
  - intros o Ho. destruct (Hrow _ _ o Ho) as (r & [Hr Hr'] & _ & Hkey & _ & Hown & _).
    exists r. split; [exact Hr |]. split; [now rewrite Hkey |].
    rewrite (unique_key_group coarse_key df' r Hnd Hr') in Hown.
    cbn in Hown. rewrite (round_comp _ _ 1 (avg_singleton _)) in Hown.
    now rewrite (proj1 (Hrounded r Hr)) in Hown.
  - intros o Ho. destruct (Hrow _ _ o Ho) as (r & [Hr Hr'] & _ & Hkey & _ & Hown & _).
    now rewrite (unique_key_group coarse_key df' r Hnd Hr') in Hown.
  - intros o Ho. destruct (Hrow _ _ o Ho) as (r & [Hr Hr'] & _ & Hkey & _ & Hown & _).
    exists r. split; [exact Hr |]. split; [now rewrite Hkey |].
    rewrite (unique_key_group coarse_key df' r Hnd Hr') in Hown.
    cbn in Hown. rewrite (round_comp _ _ 2 (avg_singleton _)) in Hown.
    now rewrite (proj2 (Hrounded r Hr)) in Hown.
Qed.

Lemma timewindow_pivot_one_lane_per_row_witness :
  let df := Legacy.timewindow_agg [mkFineRow 99990 (Some 2) 1 50 1 3] 0 100 30 in
  let o := Pivot.mkPivotRow (Some 3) (Some 2) 1 [(1, Some 1)] in
  (df = timewindow_agg [mkFineRow 99990 (Some 2) 1 50 1 3] 0 100 30
   \/ df = Legacy.timewindow_agg [mkFineRow 99990 (Some 2) 1 50 1 3] 0 100 30)
  /\ o ∈ (Pivot.timewindow_pivot df 3).1.2
  /\ (Pivot.Lane_ID o, Some 1) ∈ Pivot.lanes o.
Proof.
  intros df o.
  assert (o ∈ (Pivot.timewindow_pivot df 3).1.2) as Ho by (vm_compute; left).
  split; [right; reflexivity |]. split; [exact Ho |].
  exact (proj1 (proj2 (proj2 (timewindow_pivot_one_lane_per_row df 3)
                         [mkFineRow 99990 (Some 2) 1 50 1 3] 0 100 30
                         (or_intror eq_refl))) o Ho).
Defined.

End Pivoting.
